(** * Block_3: contour classification and colour labelling

    A shallow embedding of the classification code of the repository:

    - [utils/proga1.py]      : [ShapeDetector.detect]
    - [detect_shapes.py]     : [classify_contours]
    - [detected_figures.py]  : [get_color_at_point], [detect_shapes_and_colors]

    Conventions of the embedding.

    - A Python [float] is the rational number it denotes ([Q]); [int]
      values are [Z].  The circularity of line 50 of detect_shapes.py is
      computed as the code computes it, every operation rounded to binary64
      ([binary64], round to nearest, ties to even; the exponent range is not
      modelled, the areas and perimeters of contours are far inside it).  The
      other quotients (lines 28 of utils/proga1.py, 62 of detect_shapes.py,
      76-77 of detected_figures.py) are kept exact: their operands are
      integers or half-integers and they are only compared with 0.95 and
      1.05 or truncated, which rounding does not change.
    - Python exceptions are values of an error monad ([result]).
    - The OpenCV geometry primitives ([cv2.contourArea], [cv2.arcLength],
      [cv2.approxPolyDP], [cv2.boundingRect], [cv2.minAreaRect],
      [cv2.boxPoints], [cv2.moments], [cv2.imread], the per-pixel BGR to HSV
      conversion) are not code of the repository: they are the fields of the
      interface [Cv2], and every theorem holds for every implementation of it.
    - In [detect_shapes_and_colors] the drawing on the output image and the
      writing of it to disk (lines 90-102) are left out: they do not
      influence the returned records.  They can raise [cv2.error], so the
      statements about that function speak of its records and of the
      exceptions of the record computation only. *)

From Stdlib Require Import ZArith QArith Qabs Qfield Lqa List String Bool Lia.
From Stdlib Require Import Permutation.
Import ListNotations.

Open Scope string_scope.
Open Scope list_scope.

Set Implicit Arguments.

(* ===================================================================== *)
(** ** Python values, exceptions, arithmetic *)
(* ===================================================================== *)

Module Py.

(** The exceptions the modelled code can raise; [CvError] is [cv2.error]. *)
Inductive exn : Type :=
| TypeError (msg : string)
| ValueError (msg : string)
| FileNotFoundError (msg : string)
| ZeroDivisionError
| IndexError
| CvError (msg : string).

Inductive result (A : Type) : Type :=
| Ok (a : A)
| Raise (e : exn).

Arguments Ok {A} a.
Arguments Raise {A} e.

Definition bind {A B : Type} (m : result A) (k : A -> result B) : result B :=
  match m with
  | Ok a => k a
  | Raise e => Raise e
  end.

(** [x < y], [x <= y], [x == y] on floats, as booleans. *)
Definition Qltb (x y : Q) : bool := negb (Qle_bool y x).
Definition Qleb (x y : Q) : bool := Qle_bool x y.
Definition Qeqb (x y : Q) : bool := Qeq_bool x y.

(** [x / y] on floats where the quotient is kept exact: raises
    [ZeroDivisionError] on a zero divisor. *)
Definition float_div (x y : Q) : result Q :=
  if Qeqb y 0 then Raise ZeroDivisionError else Ok (x / y)%Q.

(** [int(x)] on a float: truncation toward zero. *)
Definition int (x : Q) : Z := Z.quot (Qnum x) (Zpos (Qden x)).

(** [float(n)] on an int. *)
Definition float (n : Z) : Q := inject_Z n.

(** [numpy.pi]: the binary64 number nearest to pi, which is this rational. *)
Definition np_pi : Q := 884279719003555 # 281474976710656.

(** [2 ^ e] as a rational, for every integer [e]. *)
Definition pow2 (e : Z) : Q :=
  match e with
  | Zneg p => 1 # (2 ^ p)
  | _ => inject_Z (2 ^ e)
  end.

(** The integer nearest to [a / b], the even one on a tie. *)
Definition round_half_even (a b : Z) : Z :=
  let q := (a / b)%Z in
  let r := (a mod b)%Z in
  if (2 * r <? b)%Z then q
  else if (b <? 2 * r)%Z then (q + 1)%Z
  else if Z.even q then q else (q + 1)%Z.

(** The binary64 number nearest to [n / d]: the quotient is scaled by a power
    of two into [2^52, 2^53), rounded to an integer of 53 bits, and scaled
    back. *)
Definition binary64_pos (n d : positive) : Q :=
  let e := (Z.log2 (Zpos n) - Z.log2 (Zpos d) - 53)%Z in
  let a := (if 0 <=? e then Zpos n else Zpos n * 2 ^ (- e))%Z in
  let b := (if 0 <=? e then Zpos d * 2 ^ e else Zpos d)%Z in
  if (a <? b * 2 ^ 53)%Z
  then (inject_Z (round_half_even a b) * pow2 e)%Q
  else (inject_Z (round_half_even a (2 * b)) * pow2 (e + 1))%Q.

(** Rounding to binary64 (round to nearest, ties to even).  It is what a
    float literal denotes and what every float operation applies to its
    exact result. *)
Definition binary64 (x : Q) : Q :=
  match Qnum x with
  | Z0 => 0%Q
  | Zpos n => binary64_pos n (Qden x)
  | Zneg n => (- binary64_pos n (Qden x))%Q
  end.

(** [x * y], [x ** n] and [x / y] on floats, rounded; [**] goes through the
    [pow] of the C library, taken to return the correctly rounded power. *)
Definition float_mul64 (x y : Q) : Q := binary64 (x * y)%Q.

Definition float_pow64 (x : Q) (n : Z) : Q := binary64 (x ^ n)%Q.

Definition float_div64 (x y : Q) : result Q :=
  if Qeqb y 0 then Raise ZeroDivisionError else Ok (binary64 (x / y)%Q).

(** A point of a contour, and a numpy array of points (shape (N, 1, 2) or
    (N, 2)); int32 and float32 coordinates both embed in [Q]. *)
Definition Point : Type := (Q * Q)%type.
Definition ndarray : Type := list Point.

(** [numpy.intp(a)] on an array of points: every coordinate is converted to
    an integer by the C cast, which rounds toward zero. *)
Definition np_intp (a : ndarray) : ndarray :=
  map (fun p : Point => (float (int (fst p)), float (int (snd p)))) a.

(** The Python objects that can be passed where a list of contours is
    expected, and that such a list can hold. *)
#[warnings="-register-all"]
Inductive pyobj : Type :=
| PyNone
| PyInt (z : Z)
| PyFloat (q : Q)
| PyStr (s : string)
| PyList (l : list pyobj)
| PyTuple (l : list pyobj)
| PyArray (a : ndarray).

End Py.

Import Py.

Declare Scope py_scope.
Delimit Scope py_scope with py.
Notation "x <- m ;; k" := (bind m (fun x => k))
  (at level 61, m at next level, right associativity) : py_scope.
Open Scope py_scope.

(* ===================================================================== *)
(** ** Images and the OpenCV interface *)
(* ===================================================================== *)

(** A pixel: three channels (B, G, R or H, S, V). *)
Definition Pixel : Type := (Z * Z * Z)%type.

(** An image: [shape0] rows (height) of [shape1] columns (width). *)
Record Image : Type := mkImage {
  shape0 : Z;
  shape1 : Z;
  pixels : Z -> Z -> Pixel
}.

(** [img[y, x]]: numpy indexing, where a negative index counts from the end and
    an index out of range raises [IndexError]. *)
Definition getitem (img : Image) (y x : Z) : result Pixel :=
  if ((- shape0 img <=? y) && (y <? shape0 img) &&
      (- shape1 img <=? x) && (x <? shape1 img))%Z
  then Ok (pixels img (y mod shape0 img) (x mod shape1 img))
  else Raise IndexError.

(** The dictionary [cv2.moments] returns; only these keys are read. *)
Record Moments : Type := mkMoments {
  m00 : Q;
  m10 : Q;
  m01 : Q
}.

(** The rotated rectangle of [cv2.minAreaRect]: centre, size, angle. *)
Record RotatedRect : Type := mkRotatedRect {
  rr_center : Q * Q;
  rr_size : Q * Q;
  rr_angle : Q
}.

Class Cv2 : Type := {
  contourArea : ndarray -> Q;
  arcLength : ndarray -> bool -> Q;
  approxPolyDP : ndarray -> Q -> bool -> ndarray;
  boundingRect : ndarray -> Z * Z * Z * Z;
  minAreaRect : ndarray -> RotatedRect;
  boxPoints : RotatedRect -> ndarray;
  moments : ndarray -> Moments;
  imread : string -> option Image;
  BGR2HSV : Pixel -> Pixel
}.

(** [cv2.cvtColor(image, cv2.COLOR_BGR2HSV)]: the conversion is per pixel and
    keeps the shape. *)
Definition cvtColor_BGR2HSV `{Cv2} (image : Image) : Image :=
  {| shape0 := shape0 image;
     shape1 := shape1 image;
     pixels := fun y x => BGR2HSV (pixels image y x) |}.

(** [cv2.inRange(np.array([[pixel]]), lower, upper)[0, 0]]: 255 when every
    channel lies between the bounds, both included, and 0 otherwise. *)
Definition inRange (pixel lower upper : Pixel) : Z :=
  let '(p0, p1, p2) := pixel in
  let '(l0, l1, l2) := lower in
  let '(u0, u1, u2) := upper in
  if ((l0 <=? p0) && (p0 <=? u0) &&
      (l1 <=? p1) && (p1 <=? u1) &&
      (l2 <=? p2) && (p2 <=? u2))%Z
  then 255%Z else 0%Z.

(* ===================================================================== *)
(** ** utils/proga1.py *)
(* ===================================================================== *)

Module ShapeDetector.
Section WithCv2.
Context `{Cv2}.

Definition unknown_shape : string := "неопознанная".
Definition square : string := "квадрат".
Definition rectangle : string := "прямоугольник".

(** [class ShapeDetector] has no fields. *)
Inductive t : Type := new.

Definition detect (self : t) (c : ndarray) : result string :=
  let shape := unknown_shape in
  let peri := arcLength c true in
  let approx := approxPolyDP c (0.04 * peri)%Q true in
  if (List.length approx =? 4)%nat then
    let '(x, y, w, h) := boundingRect approx in
    ar <- float_div (float w) (float h) ;;
    Ok (if Qleb 0.95 ar && Qleb ar 1.05 then square else rectangle)
  else Ok shape.

End WithCv2.
End ShapeDetector.

(* ===================================================================== *)
(** ** detect_shapes.py *)
(* ===================================================================== *)

Module DetectShapes.
Section WithCv2.
Context `{Cv2}.

(** The three lists under construction: circles, rects, others. *)
Definition Buckets : Type := (list ndarray * list ndarray * list ndarray)%type.

(** The circularity of line 50. *)
Definition circularity (area perimeter : Q) : result Q :=
  float_div64 (float_mul64 (float_mul64 4 np_pi) area) (float_pow64 perimeter 2).

(** The test of line 62: [box_area > 0 and area / box_area > 0.95]; the
    division is evaluated only when the first operand holds. *)
Definition fills_box (area box_area : Q) : result bool :=
  if Qltb 0 box_area then
    ratio <- float_div area box_area ;;
    Ok (Qltb 0.95 ratio)
  else Ok false.

(** One iteration of the loop of lines 39-67. *)
Definition classify_step (sd : ShapeDetector.t) (circularity_threshold : Q)
    (st : Buckets) (cnt : pyobj) : result Buckets :=
  let '(circles, rects, others) := st in
  match cnt with
  | PyArray cnt =>
      let area := contourArea cnt in
      let perimeter := arcLength cnt true in
      if Qleb perimeter 0 || Qleb area 0 then
        Ok (circles, rects, others ++ [cnt])
      else
        circ <- circularity area perimeter ;;
        if Qltb circularity_threshold circ then
          Ok (circles ++ [cnt], rects, others)
        else
          shape <- ShapeDetector.detect sd cnt ;;
          if String.eqb shape ShapeDetector.rectangle
             || String.eqb shape ShapeDetector.square then
            let rect := minAreaRect cnt in
            let box := boxPoints rect in
            let box := np_intp box in
            let box_area := contourArea box in
            keep <- fills_box area box_area ;;
            if keep then Ok (circles, rects ++ [cnt], others)
            else Ok (circles, rects, others ++ [cnt])
          else Ok (circles, rects, others ++ [cnt])
  | _ => Ok st
  end.

Fixpoint classify_loop (sd : ShapeDetector.t) (circularity_threshold : Q)
    (contours : list pyobj) (st : Buckets) : result Buckets :=
  match contours with
  | [] => Ok st
  | cnt :: rest =>
      st' <- classify_step sd circularity_threshold st cnt ;;
      classify_loop sd circularity_threshold rest st'
  end.

Definition classify_contours (contours : pyobj) (circularity_threshold : Q)
  : result Buckets :=
  match contours with
  | PyList l | PyTuple l =>
      match l with
      | [] => Raise (ValueError "Empty contour list provided")
      | _ =>
          let sd := ShapeDetector.new in
          classify_loop sd circularity_threshold l ([], [], [])
      end
  | _ => Raise (TypeError "Contours must be provided as a list or tuple")
  end.

(** The default value of the parameter [circularity_threshold]. *)
Definition default_circularity_threshold : Q := binary64 0.8.

Definition classify_contours_default (contours : pyobj) : result Buckets :=
  classify_contours contours default_circularity_threshold.


End WithCv2.
End DetectShapes.

(* ===================================================================== *)
(** ** detected_figures.py *)
(* ===================================================================== *)

Module DetectedFigures.

(** A value of the colour dictionary: one (lower, upper) pair, or a Python
    list of such pairs. *)
Inductive ColorRange : Type :=
| RangePair (lower upper : Pixel)
| RangeList (ranges : list (Pixel * Pixel)).

(** The colour dictionary, in insertion order ([dict.items()]). *)
Definition ColorRanges : Type := list (string * ColorRange).

Definition default_color_hsv_ranges : ColorRanges :=
  [ ("red", RangeList [ ((0, 50, 50)%Z, (10, 255, 255)%Z);
                        ((160, 50, 50)%Z, (180, 255, 255)%Z) ]);
    ("green", RangePair (35, 50, 50)%Z (85, 255, 255)%Z);
    ("blue", RangePair (100, 50, 50)%Z (130, 255, 255)%Z);
    ("yellow", RangePair (20, 50, 50)%Z (35, 255, 255)%Z) ].

(** The inner loop of lines 50-54: [Some name] is an early [return]. *)
Fixpoint scan_ranges (hsv_pixel : Pixel) (color_name : string)
    (ranges : list (Pixel * Pixel)) : option string :=
  match ranges with
  | [] => None
  | (lower, upper) :: rest =>
      if (inRange hsv_pixel lower upper =? 255)%Z then Some color_name
      else scan_ranges hsv_pixel color_name rest
  end.

(** The loop of lines 48-61 over the items of the dictionary. *)
Fixpoint scan_items (hsv_pixel : Pixel) (items : ColorRanges) : string :=
  match items with
  | [] => "unknown"
  | (color_name, ranges) :: rest =>
      match ranges with
      | RangeList l =>
          match scan_ranges hsv_pixel color_name l with
          | Some name => name
          | None => scan_items hsv_pixel rest
          end
      | RangePair lower upper =>
          if (inRange hsv_pixel lower upper =? 255)%Z then color_name
          else scan_items hsv_pixel rest
      end
  end.

Definition get_color_at_point (hsv_img : Image) (x y : Z)
    (color_ranges : ColorRanges) : result string :=
  if ((x <? 0) || (y <? 0) || (x >=? shape1 hsv_img) || (y >=? shape0 hsv_img))%Z
  then Ok "unknown"
  else
    hsv_pixel <- getitem hsv_img y x ;;
    Ok (scan_items hsv_pixel color_ranges).

Section WithCv2.
Context `{Cv2}.

Definition Labelled : Type := (ndarray * string * string)%type.

(** One iteration of the loop of lines 67-99 (without the drawing). *)
Definition label_step (image hsv : Image) (color_hsv_ranges : ColorRanges)
    (results : list Labelled) (item : ndarray * string)
  : result (list Labelled) :=
  let '(contour, shape_label) := item in
  let area := contourArea contour in
  if Qltb area 100 then Ok results
  else
    let M := moments contour in
    if negb (Qeqb (m00 M) 0) then
      qx <- float_div (m10 M) (m00 M) ;;
      let cx := int qx in
      qy <- float_div (m01 M) (m00 M) ;;
      let cy := int qy in
      color <- (if ((cx <? 0) || (cy <? 0) ||
                    (cx >=? shape1 image) || (cy >=? shape0 image))%Z
                then Ok "unknown"
                else get_color_at_point hsv cx cy color_hsv_ranges) ;;
      Ok (results ++ [(contour, shape_label, color)])
    else Ok results.

Fixpoint label_loop (image hsv : Image) (color_hsv_ranges : ColorRanges)
    (pairs : list (ndarray * string)) (results : list Labelled)
  : result (list Labelled) :=
  match pairs with
  | [] => Ok results
  | item :: rest =>
      results' <- label_step image hsv color_hsv_ranges results item ;;
      label_loop image hsv color_hsv_ranges rest results'
  end.

(** [zip(contours_list, shape_labels)] is [combine]: it stops at the end of
    the shorter list. *)
Definition detect_shapes_and_colors (image_path : string)
    (contours_list : list ndarray) (shape_labels : list string)
    (color_hsv_ranges : option ColorRanges) : result (list Labelled) :=
  match imread image_path with
  | None =>
      Raise (FileNotFoundError ("Ошибка в загрузке файла: " ++ image_path)%string)
  | Some image =>
      let hsv := cvtColor_BGR2HSV image in
      let color_hsv_ranges :=
        match color_hsv_ranges with
        | None => default_color_hsv_ranges
        | Some ranges => ranges
        end in
      label_loop image hsv color_hsv_ranges
                 (combine contours_list shape_labels) []
  end.

End WithCv2.
End DetectedFigures.

(* ===================================================================== *)
(** ** A reference implementation of the OpenCV interface

    The examples below run the code on this implementation.  It is exact on
    the contours used here: polygons with integer vertices whose edges have
    integer length. *)
(* ===================================================================== *)

Module RefCv2.

Definition cross (p q : Point) : Q := (fst p * snd q - fst q * snd p)%Q.

(** The edges of a closed polygon: every vertex with its successor, the last
    one with the first. *)
Definition edges (a : ndarray) : list (Point * Point) :=
  match a with
  | [] => []
  | p :: rest => combine a (rest ++ [p])
  end.

Definition Qsum (l : list Q) : Q := fold_right Qplus 0%Q l.

(** Twice the signed area (shoelace formula). *)
Definition signed_area2 (a : ndarray) : Q :=
  Qsum (map (fun e => cross (fst e) (snd e)) (edges a)).

Definition contourArea (a : ndarray) : Q := (Qabs (signed_area2 a) / 2)%Q.

(** The square root of a rational that is a square (rounded down otherwise). *)
Definition Qsqrt (q : Q) : Q := Z.sqrt (Qnum q * Zpos (Qden q)) # Qden q.

Definition edge_length (e : Point * Point) : Q :=
  let dx := (fst (snd e) - fst (fst e))%Q in
  let dy := (snd (snd e) - snd (fst e))%Q in
  Qsqrt (dx * dx + dy * dy)%Q.

Definition arcLength (a : ndarray) (closed : bool) : Q :=
  Qsum (map edge_length (if closed then edges a else combine a (tl a))).

(** No vertex is removed: this is what Douglas-Peucker returns when every
    vertex is farther than [epsilon] from the chord of its neighbours. *)
Definition approxPolyDP (a : ndarray) (epsilon : Q) (closed : bool) : ndarray := a.

Definition Zmin_list (d : Z) (l : list Z) : Z := fold_right Z.min d l.
Definition Zmax_list (d : Z) (l : list Z) : Z := fold_right Z.max d l.

Definition xs (a : ndarray) : list Z := map (fun p : Point => int (fst p)) a.
Definition ys (a : ndarray) : list Z := map (fun p : Point => int (snd p)) a.

(** The upright bounding rectangle of integer points: (x, y, w, h), where the
    width and the height count pixels. *)
Definition boundingRect (a : ndarray) : Z * Z * Z * Z :=
  match xs a, ys a with
  | x :: xr, y :: yr =>
      let x0 := Zmin_list x xr in
      let x1 := Zmax_list x xr in
      let y0 := Zmin_list y yr in
      let y1 := Zmax_list y yr in
      (x0, y0, x1 - x0 + 1, y1 - y0 + 1)%Z
  | _, _ => (0, 0, 0, 0)%Z
  end.

(** The upright rectangle around the points; it is the rectangle of minimum
    area for the contours used here. *)
Definition minAreaRect (a : ndarray) : RotatedRect :=
  match xs a, ys a with
  | x :: xr, y :: yr =>
      let x0 := Zmin_list x xr in
      let x1 := Zmax_list x xr in
      let y0 := Zmin_list y yr in
      let y1 := Zmax_list y yr in
      {| rr_center := (((x0 + x1)%Z # 2), ((y0 + y1)%Z # 2));
         rr_size := (inject_Z (x1 - x0), inject_Z (y1 - y0));
         rr_angle := 0 |}
  | _, _ => {| rr_center := (0, 0)%Q; rr_size := (0, 0)%Q; rr_angle := 0 |}
  end.

(** The corners of an upright rectangle. *)
Definition boxPoints (r : RotatedRect) : ndarray :=
  let '(cx, cy) := rr_center r in
  let '(w, h) := rr_size r in
  [ (cx - w / 2, cy + h / 2); (cx - w / 2, cy - h / 2);
    (cx + w / 2, cy - h / 2); (cx + w / 2, cy + h / 2) ]%Q.

(** The area moments of a polygon (Green's formula), with the sign
    normalised as OpenCV does. *)
Definition moments (a : ndarray) : Moments :=
  let s := signed_area2 a in
  let sx := Qsum (map (fun e => (fst (fst e) + fst (snd e)) * cross (fst e) (snd e))%Q
                      (edges a)) in
  let sy := Qsum (map (fun e => (snd (fst e) + snd (snd e)) * cross (fst e) (snd e))%Q
                      (edges a)) in
  if Qltb s 0
  then {| m00 := - s / 2; m10 := - sx / 6; m01 := - sy / 6 |}%Q
  else {| m00 := s / 2; m10 := sx / 6; m01 := sy / 6 |}%Q.

(** One picture on disk: 200 x 200, the left half red, the right half green
    (in BGR order). *)
Definition picture : Image :=
  {| shape0 := 200;
     shape1 := 200;
     pixels := fun y x => if (x <? 100)%Z then (0, 0, 255)%Z else (0, 255, 0)%Z |}.

Definition imread (path : string) : option Image :=
  if String.eqb path "shapes.png" then Some picture else None.

(** 8-bit BGR to HSV with H in [0, 180); exact on the pure colours used
    here. *)
Definition BGR2HSV (p : Pixel) : Pixel :=
  let '(b, g, r) := p in
  let v := Z.max b (Z.max g r) in
  let d := (v - Z.min b (Z.min g r))%Z in
  let s := (if v =? 0 then 0 else 255 * d / v)%Z in
  let h := (if d =? 0 then 0
            else if v =? r then (30 * (g - b) / d) mod 180
            else if v =? g then 60 + 30 * (b - r) / d
            else 120 + 30 * (r - g) / d)%Z in
  (h, s, v).

Definition cv2 : Cv2 :=
  Build_Cv2 contourArea arcLength approxPolyDP boundingRect minAreaRect
            boxPoints moments imread BGR2HSV.

End RefCv2.

(* ===================================================================== *)
(** ** Contours used in the examples *)
(* ===================================================================== *)

Module Examples.

(** The 100 x 100 square of the end-to-end example: area 10000, perimeter
    400. *)
Definition square100 : ndarray := [(0, 0); (100, 0); (100, 100); (0, 100)]%Q.

(** A 200 x 50 rectangle. *)
Definition bar : ndarray := [(0, 0); (200, 0); (200, 50); (0, 50)]%Q.

(** An octagon with sides 40, 50, 20, 50, ...: area 7600, perimeter 320,
    circularity about 0.93. *)
Definition octagon : ndarray :=
  [(30, 0); (70, 0); (100, 40); (100, 60); (70, 100); (30, 100); (0, 60); (0, 40)]%Q.

(** A quadrilateral that fills nine tenths of its bounding rectangle. *)
Definition trapezoid : ndarray := [(0, 0); (100, 0); (80, 100); (0, 100)]%Q.

(** A 100 x 50 rectangle: area 5000, perimeter 300; its circularity in
    binary64 is 0.6981317007977318. *)
Definition rect100x50 : ndarray := [(0, 0); (100, 0); (100, 50); (0, 50)]%Q.

(** A contour of two points: area 0. *)
Definition segment : ndarray := [(0, 0); (10, 0)]%Q.

(** A 21 x 21 square around the point (-1/2, -1/2): area 441. *)
Definition corner_square : ndarray := [(-11, -11); (10, -11); (10, 10); (-11, 10)]%Q.

End Examples.

(* ===================================================================== *)
(** ** Notions used in the statements *)
(* ===================================================================== *)

(** The value of [(4 * np.pi * area) / (perimeter ** 2)] in binary64: the
    product [4 * np.pi], its product with the area, the square and the
    quotient are each rounded. *)
Definition circularity_of (area perimeter : Q) : Q :=
  binary64 (binary64 (binary64 (4 * np_pi) * area) / binary64 (perimeter ^ 2))%Q.

(** Half a unit in the last place, relative: 2^-53. *)
Definition ulp_half : Q := 1 # (2 ^ 53).

(** The integer corner points of the minimum-area rectangle (lines 56-58). *)
Definition integer_box `{Cv2} (cnt : ndarray) : ndarray :=
  np_intp (boxPoints (minAreaRect cnt)).

(** A pixel lies in an interval when every channel lies between the bounds,
    both included. *)
Definition within (pixel lower upper : Pixel) : Prop :=
  let '(p0, p1, p2) := pixel in
  let '(l0, l1, l2) := lower in
  let '(u0, u1, u2) := upper in
  (l0 <= p0 <= u0 /\ l1 <= p1 <= u1 /\ l2 <= p2 <= u2)%Z.

Definition withinb (pixel lower upper : Pixel) : bool :=
  let '(p0, p1, p2) := pixel in
  let '(l0, l1, l2) := lower in
  let '(u0, u1, u2) := upper in
  ((l0 <=? p0) && (p0 <=? u0) && (l1 <=? p1) && (p1 <=? u1) &&
   (l2 <=? p2) && (p2 <=? u2))%Z.

(** An entry of the table matches a pixel: its interval holds the pixel, or
    any interval of its list does. *)
Definition entry_matches (pixel : Pixel) (r : DetectedFigures.ColorRange) : bool :=
  match r with
  | DetectedFigures.RangePair lower upper => withinb pixel lower upper
  | DetectedFigures.RangeList l =>
      existsb (fun lu => withinb pixel (fst lu) (snd lu)) l
  end.

(** The name of the first entry of the table that matches the pixel. *)
Definition first_match (pixel : Pixel) (table : DetectedFigures.ColorRanges) : string :=
  match find (fun entry => entry_matches pixel (snd entry)) table with
  | Some entry => fst entry
  | None => "unknown"
  end.

(** [a] occurs before [b] in [l]. *)
Definition precedes {A : Type} (a b : A) (l : list A) : Prop :=
  exists l1 l2 l3, l = l1 ++ a :: l2 ++ b :: l3.

(** The buckets, and what the loop of [classify_contours] does to them. *)
Inductive Bucket : Type := Circles | Rects | Others.

Definition empty : DetectShapes.Buckets := ([], [], []).

Definition merge (st d : DetectShapes.Buckets) : DetectShapes.Buckets :=
  let '(c, r, o) := st in
  let '(dc, dr, do) := d in
  (c ++ dc, r ++ dr, o ++ do).

Definition single (which : Bucket) (cnt : ndarray) : DetectShapes.Buckets :=
  match which with
  | Circles => ([cnt], [], [])
  | Rects => ([], [cnt], [])
  | Others => ([], [], [cnt])
  end.

Definition select (which : Bucket) (st : DetectShapes.Buckets) : list ndarray :=
  let '(c, r, o) := st in
  match which with
  | Circles => c
  | Rects => r
  | Others => o
  end.

(** Processing the contour [cnt] appends it to the bucket [which]. *)
Definition lands_in `{Cv2} (thr : Q) (which : Bucket) (cnt : ndarray) : Prop :=
  DetectShapes.classify_step ShapeDetector.new thr empty (PyArray cnt)
  = Ok (single which cnt).

(** What [isinstance(contours, (list, tuple))] and
    [isinstance(cnt, np.ndarray)] test. *)
Definition is_sequence (o : pyobj) : bool :=
  match o with
  | PyList _ | PyTuple _ => true
  | _ => false
  end.

Definition is_ndarray (o : pyobj) : bool :=
  match o with
  | PyArray _ => true
  | _ => false
  end.

(** The point (x, y) is outside the image. *)
Definition out_of_bounds (img : Image) (x y : Z) : Prop :=
  (x < 0 \/ y < 0 \/ x >= shape1 img \/ y >= shape0 img)%Z.

Definition out_of_boundsb (img : Image) (x y : Z) : bool :=
  ((x <? 0) || (y <? 0) || (x >=? shape1 img) || (y >=? shape0 img))%Z.

(** The colour name at a point of an HSV image. *)
Definition color_at (hsv : Image) (x y : Z) (table : DetectedFigures.ColorRanges)
  : string :=
  if out_of_boundsb hsv x y then "unknown"
  else first_match (pixels hsv y x) table.

(** The pixel the labeler samples: the centroid m10/m00, m01/m00 with both
    coordinates truncated toward zero by [int]. *)
Definition centroid_pixel `{Cv2} (contour : ndarray) : Z * Z :=
  let M := moments contour in
  (int (m10 M / m00 M), int (m01 M / m00 M)).

(** The records the labeler produces for one (contour, label) pair: none, or
    one. *)
Definition labelled `{Cv2} (image : Image) (table : DetectedFigures.ColorRanges)
    (item : ndarray * string) : list DetectedFigures.Labelled :=
  if Qltb (contourArea (fst item)) 100 || Qeqb (m00 (moments (fst item))) 0
  then []
  else [(fst item, snd item,
         color_at (cvtColor_BGR2HSV image)
                  (fst (centroid_pixel (fst item)))
                  (snd (centroid_pixel (fst item))) table)].

(** The table in use: the caller's, or the default one. *)
Definition table_of (color_hsv_ranges : option DetectedFigures.ColorRanges)
  : DetectedFigures.ColorRanges :=
  match color_hsv_ranges with
  | None => DetectedFigures.default_color_hsv_ranges
  | Some ranges => ranges
  end.

(* ===================================================================== *)
(** ** Drawing, loading and the pipelines of the [main] functions *)
(* ===================================================================== *)

(** A single-channel image (a 2-D array). *)
Record GrayImage : Type := mkGrayImage {
  gshape0 : Z;
  gshape1 : Z;
  gpixels : Z -> Z -> Z
}.

(** What a caller can pass as an image: [None], an object that is no array,
    a 2-D array or a 3-channel array. *)
Inductive pyimage : Type :=
| ImNone
| ImNotArray
| ImGray (g : GrayImage)
| ImColor (c : Image).

(** [cv2.cvtColor(image, cv2.COLOR_GRAY2BGR)]: the grey level on the three
    channels. *)
Definition cvtColor_GRAY2BGR (g : GrayImage) : Image :=
  {| shape0 := gshape0 g;
     shape1 := gshape1 g;
     pixels := fun y x => (gpixels g y x, gpixels g y x, gpixels g y x) |}.

(** The functions of the environment the rest of the code goes through:
    OpenCV drawing and filtering, [os.path.exists], [skimage.data.coins], and
    [utils.coins_contour_detection.counting_contours], a module of the
    repository whose source is not available: it is taken as a function that
    returns a Python list. *)
Class Env : Type := {
  drawContours : Image -> list ndarray -> Z -> Pixel -> Z -> result Image;
  path_exists : string -> bool;
  BGR2GRAY : Pixel -> Z;
  equalizeHist : GrayImage -> GrayImage;
  GaussianBlur : GrayImage -> Z * Z -> Z -> GrayImage;
  data_coins : GrayImage;
  counting_contours : GrayImage -> Z -> Z -> Z -> Z -> Z -> Z -> list pyobj
}.

Definition cvtColor_BGR2GRAY `{Env} (image : Image) : GrayImage :=
  {| gshape0 := shape0 image;
     gshape1 := shape1 image;
     gpixels := fun y x => BGR2GRAY (pixels image y x) |}.

(** Truth value of [image_path] ([None] and the empty string are false). *)
Definition truthy (image_path : option string) : bool :=
  match image_path with
  | Some path => negb (String.eqb path "")
  | None => false
  end.

Module DetectShapesIO.
Section WithEnv.
Context `{Cv2} `{Env}.

(** The loop of lines 92-93: every contour is drawn on the output image;
    [cv2.drawContours] can refuse a contour with [cv2.error]. *)
Fixpoint draw_loop (output_img : Image) (contours : list ndarray)
    (color : Pixel) (thickness : Z) : result Image :=
  match contours with
  | [] => Ok output_img
  | cnt :: rest =>
      drawn <- drawContours output_img [cnt] (-1) color thickness ;;
      draw_loop drawn rest color thickness
  end.

Definition draw_contours (image : pyimage) (contours : list ndarray)
    (color : Pixel) (thickness : Z) : result Image :=
  match image with
  | ImNone | ImNotArray =>
      Raise (ValueError "Invalid input image for drawing contours")
  | ImGray g => draw_loop (cvtColor_GRAY2BGR g) contours color thickness
  | ImColor c => draw_loop c contours color thickness
  end.

(** The [else] branch of lines 129-135: the coins picture, with fixed
    parameters. *)
Definition load_coins : pyimage * list pyobj :=
  let image := data_coins in
  let gray := equalizeHist image in
  let gray := GaussianBlur gray (7, 7)%Z 0 in
  let contours := counting_contours gray 50 150 127 255 200 5000 in
  (ImGray image, contours).

(** The branches of lines 117-135. *)
Definition load (image_path : option string)
    (canny1 canny2 thresh_min thresh_max area_min area_max : Z)
  : result (pyimage * list pyobj) :=
  match image_path with
  | Some path =>
      if truthy image_path then
        if negb (path_exists path) then
          Raise (FileNotFoundError ("Image file not found: " ++ path)%string)
        else
          match imread path with
          | None =>
              Raise (ValueError "Failed to load image. Check file format or path.")
          | Some image =>
              let gray := cvtColor_BGR2GRAY image in
              let contours :=
                counting_contours gray canny1 canny2 thresh_min thresh_max
                                  area_min area_max in
              Ok (ImColor image, contours)
          end
      else Ok load_coins
  | None => Ok load_coins
  end.

Definition process_image (image_path : option string)
    (canny1 canny2 thresh_min thresh_max area_min area_max : Z)
  : result (pyimage * list pyobj) :=
  loaded <- load image_path canny1 canny2 thresh_min thresh_max area_min area_max ;;
  match snd loaded with
  | [] => Raise (ValueError "No contours detected in image.")
  | _ => Ok loaded
  end.

(** [process_image(image_path)] with the default parameters. *)
Definition process_image_default (image_path : option string)
  : result (pyimage * list pyobj) :=
  process_image image_path 100 255 100 255 500 20000.

End WithEnv.
End DetectShapesIO.

Module DetectedFiguresMain.
Section WithEnv.
Context `{Cv2} `{Env}.

(** Lines 121-124 of [main]: the contours of the three buckets in one list,
    and a label for each. *)
Definition all_contours (b : DetectShapes.Buckets) : list ndarray :=
  let '(circles, rects, others) := b in
  circles ++ rects ++ others.

Definition shape_labels (b : DetectShapes.Buckets) : list string :=
  let '(circles, rects, others) := b in
  repeat "circle" (List.length circles)
  ++ repeat "rectangle" (List.length rects)
  ++ repeat "other" (List.length others).

(** The body of the [try] of [main] (lines 113-140) and its value;
    [image_path] is the variable of line 109 and the printing is left out. *)
Definition main_try (image_path : option string) : result Z :=
  loaded <- DetectShapesIO.process_image_default image_path ;;
  let contours := snd loaded in
  b <- DetectShapes.classify_contours (PyList contours) (binary64 0.82) ;;
  match image_path with
  | Some path =>
      if truthy image_path then
        results <- DetectedFigures.detect_shapes_and_colors path
                     (all_contours b) (shape_labels b) None ;;
        Ok (Z.of_nat (List.length results))
      else Ok 0%Z
  | None => Ok 0%Z
  end.

(** [main]: every exception is caught and the function returns 0. *)
Definition main (image_path : option string) : Z :=
  match main_try image_path with
  | Ok n => n
  | Raise _ => 0%Z
  end.

End WithEnv.
End DetectedFiguresMain.

Module Proga1Main.
Section WithCv2.
Context `{Cv2}.

(** One iteration of the loop of lines 118-137 of [main] in utils/proga1.py,
    for the counter [rectangles_found]; [ratio] is the scale factor returned
    by [resize_image], and the drawing is left out. *)
Definition count_step (sd : ShapeDetector.t) (ratio : Q) (rectangles_found : Z)
    (c : ndarray) : result Z :=
  let M := moments c in
  if Qeqb (m00 M) 0 then Ok rectangles_found
  else
    qx <- float_div (m10 M) (m00 M) ;;
    let cX := int (qx * ratio) in
    qy <- float_div (m01 M) (m00 M) ;;
    let cY := int (qy * ratio) in
    shape <- ShapeDetector.detect sd c ;;
    if String.eqb shape ShapeDetector.rectangle
       || String.eqb shape ShapeDetector.square
    then Ok (rectangles_found + 1)%Z
    else Ok rectangles_found.

Fixpoint count_loop (sd : ShapeDetector.t) (ratio : Q) (contours : list ndarray)
    (rectangles_found : Z) : result Z :=
  match contours with
  | [] => Ok rectangles_found
  | c :: rest =>
      found <- count_step sd ratio rectangles_found c ;;
      count_loop sd ratio rest found
  end.

(** Lines 112-137: the detector, the counter at 0, the loop. *)
Definition count_rectangles (ratio : Q) (contours : list ndarray) : result Z :=
  let sd := ShapeDetector.new in
  let rectangles_found := 0%Z in
  count_loop sd ratio contours rectangles_found.

End WithCv2.
End Proga1Main.

(** The contour is counted by the loop of [Proga1Main]: m00 is not 0 and
    [detect] answers rectangle or square. *)
Definition counted `{Cv2} (c : ndarray) : bool :=
  negb (Qeqb (m00 (moments c)) 0)
  && match ShapeDetector.detect ShapeDetector.new c with
     | Ok shape => String.eqb shape ShapeDetector.rectangle
                   || String.eqb shape ShapeDetector.square
     | Raise _ => false
     end.

(** An environment for the examples: two files exist, one of them is no
    image; the contour finder returns the example contours whose area lies
    between the two area bounds. *)
Module RefEnv.

Definition drawContours (img : Image) (contours : list ndarray) (idx : Z)
    (color : Pixel) (thickness : Z) : result Image :=
  Ok {| shape0 := shape0 img;
        shape1 := shape1 img;
        pixels := fun y x =>
          if existsb (fun cnt =>
               existsb (fun p : Point =>
                          Z.eqb (int (fst p)) x && Z.eqb (int (snd p)) y) cnt)
               contours
          then color else pixels img y x |}.

Definition path_exists (path : string) : bool :=
  String.eqb path "shapes.png" || String.eqb path "notes.txt".

Definition BGR2GRAY (p : Pixel) : Z :=
  let '(b, g, r) := p in ((114 * b + 587 * g + 299 * r) / 1000)%Z.

Definition equalizeHist (g : GrayImage) : GrayImage := g.

Definition GaussianBlur (g : GrayImage) (ksize : Z * Z) (sigma : Z) : GrayImage := g.

Definition data_coins : GrayImage :=
  {| gshape0 := 303; gshape1 := 384; gpixels := fun y x => 128%Z |}.

Definition candidates : list ndarray :=
  [ Examples.octagon; Examples.segment; Examples.square100;
    Examples.corner_square; Examples.bar ].

Definition counting_contours (gray : GrayImage)
    (canny1 canny2 thresh_min thresh_max area_min area_max : Z) : list pyobj :=
  map PyArray
      (filter (fun cnt => Qleb (inject_Z area_min) (RefCv2.contourArea cnt)
                          && Qleb (RefCv2.contourArea cnt) (inject_Z area_max))
              candidates).

Definition env : Env :=
  Build_Env drawContours path_exists BGR2GRAY equalizeHist GaussianBlur
            data_coins counting_contours.

End RefEnv.

(** The further notions of the statements. *)

(** The bucket that holds the contours [xs] and nothing else. *)
Definition only (which : Bucket) (xs : list ndarray) : DetectShapes.Buckets :=
  match which with
  | Circles => (xs, [], [])
  | Rects => ([], xs, [])
  | Others => ([], [], xs)
  end.

(** The arrays of a Python list, in order. *)
Definition arrays (l : list pyobj) : list ndarray :=
  flat_map (fun x => match x with PyArray a => [a] | _ => [] end) l.

(** The simplified polygon of [detect] has a bounding rectangle whose height
    is not zero whenever it has 4 vertices. *)
Definition height_defined `{Cv2} (cnt : ndarray) : Prop :=
  List.length (approxPolyDP cnt (0.04 * arcLength cnt true)%Q true) = 4%nat ->
  snd (boundingRect (approxPolyDP cnt (0.04 * arcLength cnt true)%Q true)) <> 0%Z.

(** The labeler keeps a pair: the area is at least 100 and m00 is not 0. *)
Definition kept `{Cv2} (item : ndarray * string) : bool :=
  negb (Qltb (contourArea (fst item)) 100 || Qeqb (m00 (moments (fst item))) 0).

(** The colour names of the default table, by hue, for a pixel whose
    saturation and value lie in 50..255. *)
Definition default_band (h : Z) : string :=
  if ((0 <=? h) && (h <=? 10))%Z then "red"
  else if ((20 <=? h) && (h <=? 34))%Z then "yellow"
  else if ((35 <=? h) && (h <=? 85))%Z then "green"
  else if ((100 <=? h) && (h <=? 130))%Z then "blue"
  else if ((160 <=? h) && (h <=? 180))%Z then "red"
  else "unknown".

(* ===================================================================== *)
(** ** Arithmetic helpers *)
(* ===================================================================== *)

Lemma Qltb_lt (x y : Q) : Qltb x y = true <-> (x < y)%Q.
Proof.
  unfold Qltb. rewrite negb_true_iff. split.
  - intros E. apply Qnot_le_lt. intros L.
    apply Qle_bool_iff in L. congruence.
  - intros L. destruct (Qle_bool y x) eqn:E; [ | reflexivity ].
    apply Qle_bool_iff in E. exfalso. exact (Qlt_not_le _ _ L E).
Qed.

Lemma Qltb_nlt (x y : Q) : Qltb x y = false <-> ~ (x < y)%Q.
Proof.
  rewrite <- Qltb_lt. destruct (Qltb x y); split; intros; congruence.
Qed.

Lemma Qleb_le (x y : Q) : Qleb x y = true <-> (x <= y)%Q.
Proof. apply Qle_bool_iff. Qed.

Lemma Qleb_nle (x y : Q) : Qleb x y = false <-> ~ (x <= y)%Q.
Proof.
  rewrite <- Qleb_le. destruct (Qleb x y); split; intros; congruence.
Qed.

Lemma Qeqb_eq (x y : Q) : Qeqb x y = true <-> (x == y)%Q.
Proof. apply Qeq_bool_iff. Qed.

Lemma Qeqb_neq (x y : Q) : Qeqb x y = false <-> ~ (x == y)%Q.
Proof.
  rewrite <- Qeqb_eq. destruct (Qeqb x y); split; intros; congruence.
Qed.

Lemma float_div_ok (x y : Q) : ~ (y == 0)%Q -> float_div x y = Ok (x / y)%Q.
Proof.
  intros N. unfold float_div. apply Qeqb_neq in N. now rewrite N.
Qed.

Lemma float_nonzero (h : Z) : h <> 0%Z -> ~ (float h == 0)%Q.
Proof.
  unfold float, inject_Z, Qeq. simpl. lia.
Qed.

Unset Implicit Arguments.

Section Rounding.
Local Open Scope Q_scope.

Lemma round_half_even_near (a b : Z) :
  (0 <= a)%Z -> (0 < b)%Z ->
  (a / b <= round_half_even a b)%Z /\
  (2 * Z.abs (round_half_even a b * b - a) <= b)%Z.
Proof.
  intros A B. unfold round_half_even.
  pose proof (Z.div_mod a b ltac:(lia)) as E.
  pose proof (Z.mod_pos_bound a b B) as R.
  destruct (Z.ltb_spec (2 * (a mod b)) b); [ split; nia | ].
  destruct (Z.ltb_spec b (2 * (a mod b))); [ split; nia | ].
  destruct (Z.even (a / b)); split; nia.
Qed.

Lemma pow2_pos (e : Z) : 0 < pow2 e.
Proof.
  destruct e as [ | p | p]; unfold pow2; try reflexivity.
  unfold Qlt, inject_Z. cbn [Qnum Qden].
  pose proof (Z.pow_pos_nonneg 2 (Z.pos p)). lia.
Qed.

Lemma pow2_nonneg (e : Z) : (0 <= e)%Z -> pow2 e = inject_Z (2 ^ e).
Proof. destruct e; try reflexivity. lia. Qed.

Lemma pow2_neg (e : Z) : (e < 0)%Z -> pow2 e * inject_Z (2 ^ (- e)) == 1.
Proof.
  destruct e as [ | p | p]; try lia. intros _. unfold pow2.
  unfold Qeq, Qmult, inject_Z. cbn [Qnum Qden Z.opp].
  rewrite Pos.mul_1_r, Pos2Z.inj_pow. lia.
Qed.

Lemma pow2_succ (e : Z) : pow2 (e + 1) == 2 * pow2 e.
Proof.
  destruct (Z.leb_spec 0 e) as [N | N].
  - rewrite !pow2_nonneg by lia. rewrite Z.pow_add_r by lia.
    unfold Qeq, Qmult, inject_Z. cbn [Qnum Qden]. lia.
  - destruct (Z.eq_dec e (-1)) as [-> | M]; [ reflexivity | ].
    pose proof (pow2_neg e N) as E1.
    pose proof (pow2_neg (e + 1) ltac:(lia)) as E2.
    pose proof (pow2_pos e) as P1. pose proof (pow2_pos (e + 1)) as P2.
    assert (T : inject_Z (2 ^ (- e)) == 2 * inject_Z (2 ^ (- (e + 1)))).
    { replace (- e)%Z with (- (e + 1) + 1)%Z by lia.
      rewrite Z.pow_add_r by lia.
      unfold Qeq, Qmult, inject_Z. cbn [Qnum Qden]. lia. }
    rewrite T in E1.
    assert (Q0 : 0 < inject_Z (2 ^ (- (e + 1)))).
    { unfold Qlt, inject_Z. cbn [Qnum Qden].
      pose proof (Z.pow_pos_nonneg 2 (- (e + 1))). lia. }
    nra.
Qed.

Lemma rounded_near (a b : Z) (P q : Q) :
  (0 < b)%Z -> (2 ^ 52 * b <= a)%Z -> 0 < P ->
  q * inject_Z b == inject_Z a * P ->
  0 < inject_Z (round_half_even a b) * P /\
  Qabs (inject_Z (round_half_even a b) * P - q) <= q * ulp_half.
Proof.
  intros B L HP E.
  assert (A : (0 <= a)%Z) by lia.
  destruct (round_half_even_near a b A B) as [D N].
  set (m := round_half_even a b) in *.
  assert (M1 : (1 <= m)%Z).
  { assert (1 <= a / b)%Z by (apply Z.div_le_lower_bound; lia). lia. }
  assert (Bq : 0 < inject_Z b).
  { change 0 with (inject_Z 0). rewrite <- Zlt_Qlt. exact B. }
  assert (Mq : 1 <= inject_Z m).
  { change 1 with (inject_Z 1). rewrite <- Zle_Qle. exact M1. }
  assert (Lq : inject_Z (2 ^ 52) * inject_Z b <= inject_Z a).
  { rewrite <- inject_Z_mult, <- Zle_Qle. exact L. }
  assert (N1 : 2 * (inject_Z m * inject_Z b - inject_Z a) <= inject_Z b).
  { change 2 with (inject_Z 2).
    unfold Qminus. rewrite <- !inject_Z_mult, <- inject_Z_opp, <- inject_Z_plus,
      <- inject_Z_mult, <- Zle_Qle. lia. }
  assert (N2 : - inject_Z b <= 2 * (inject_Z m * inject_Z b - inject_Z a)).
  { change 2 with (inject_Z 2).
    unfold Qminus. rewrite <- !inject_Z_mult, <- !inject_Z_opp, <- inject_Z_plus,
      <- inject_Z_mult, <- Zle_Qle. lia. }
  split; [ nra | ].
  apply Qabs_Qle_condition.
  assert (K : inject_Z (2 ^ 52) == 4503599627370496) by reflexivity.
  rewrite K in Lq. clear K.
  change ulp_half with (1 # 9007199254740992).
  set (M := inject_Z m) in *. set (Aq := inject_Z a) in *.
  set (Bb := inject_Z b) in *.
  assert (T1 : (M * Bb - Aq) * P <= Aq * P * (1 # 9007199254740992)).
  { assert (T0 : M * Bb - Aq <= Aq * (1 # 9007199254740992)) by lra.
    apply (Qmult_le_compat_r _ _ P) in T0; [ | lra ].
    eapply Qle_trans; [ exact T0 | ]. apply Qle_lteq. right. ring. }
  assert (T2 : - (Aq * P * (1 # 9007199254740992)) <= (M * Bb - Aq) * P).
  { assert (T0 : - (Aq * (1 # 9007199254740992)) <= M * Bb - Aq) by lra.
    apply (Qmult_le_compat_r _ _ P) in T0; [ | lra ].
    eapply Qle_trans; [ | exact T0 ]. apply Qle_lteq. right. ring. }
  assert (X : (M * P - q) * Bb == (M * Bb - Aq) * P).
  { transitivity (M * P * Bb - q * Bb); [ ring | ]. rewrite E. ring. }
  assert (Y : q * (1 # 9007199254740992) * Bb == Aq * P * (1 # 9007199254740992)).
  { transitivity (q * Bb * (1 # 9007199254740992)); [ ring | ]. rewrite E. ring. }
  split.
  - apply Qmult_le_r with (z := Bb); [ exact Bq | ].
    apply Qle_trans with (- (Aq * P * (1 # 9007199254740992))).
    + rewrite <- Y. apply Qle_lteq. right. ring.
    + rewrite X. exact T2.
  - apply Qmult_le_r with (z := Bb); [ exact Bq | ].
    rewrite X, Y. exact T1.
Qed.

Lemma scaled_fraction (n d : positive) (e a b : Z) :
  e = (Z.log2 (Zpos n) - Z.log2 (Zpos d) - 53)%Z ->
  a = (if 0 <=? e then Zpos n else Zpos n * 2 ^ (- e))%Z ->
  b = (if 0 <=? e then Zpos d * 2 ^ e else Zpos d)%Z ->
  (0 < b)%Z /\ (2 ^ 52 * b <= a)%Z /\
  (Zpos n # d) * inject_Z b == inject_Z a * pow2 e.
Proof.
  intros He Ha Hb.
  pose proof (Z.log2_spec (Zpos n) ltac:(lia)) as [N1 N2].
  pose proof (Z.log2_spec (Zpos d) ltac:(lia)) as [D1 D2].
  pose proof (Z.log2_nonneg (Zpos n)) as Ln.
  pose proof (Z.log2_nonneg (Zpos d)) as Ld.
  set (ln := Z.log2 (Zpos n)) in *. set (ld := Z.log2 (Zpos d)) in *.
  rewrite Z.pow_succ_r in N2, D2 by assumption.
  destruct (Z.leb_spec 0 e) as [E | E]; subst a b.
  - assert (X : (0 < 2 ^ e)%Z) by (apply Z.pow_pos_nonneg; lia).
    assert (Y : (0 < 2 ^ ld)%Z) by (apply Z.pow_pos_nonneg; lia).
    assert (S : (2 ^ ln = 2 ^ e * 2 ^ ld * 2 ^ 53)%Z).
    { rewrite <- !Z.pow_add_r by lia. f_equal. lia. }
    repeat split; try nia.
    rewrite (pow2_nonneg e E).
    unfold Qeq, Qmult, inject_Z. cbn [Qnum Qden]. lia.
  - assert (X : (0 < 2 ^ (- e))%Z) by (apply Z.pow_pos_nonneg; lia).
    assert (Y : (0 < 2 ^ ld)%Z) by (apply Z.pow_pos_nonneg; lia).
    assert (S : (2 ^ ln * 2 ^ (- e) = 2 ^ ld * 2 ^ 53)%Z).
    { rewrite <- !Z.pow_add_r by lia. f_equal. lia. }
    repeat split; try nia.
    rewrite inject_Z_mult.
    transitivity ((Zpos n # d) * inject_Z (Zpos d) * 1); [ ring | ].
    rewrite <- (pow2_neg e E).
    assert (I : (Zpos n # d) * inject_Z (Zpos d) == inject_Z (Zpos n)).
    { unfold Qeq, Qmult, inject_Z. cbn [Qnum Qden]. lia. }
    rewrite I. ring.
Qed.

Lemma binary64_pos_near (n d : positive) :
  0 < binary64_pos n d /\
  Qabs (binary64_pos n d - (Zpos n # d)) <= (Zpos n # d) * ulp_half.
Proof.
  unfold binary64_pos.
  set (e := (Z.log2 (Zpos n) - Z.log2 (Zpos d) - 53)%Z).
  set (a := (if 0 <=? e then Zpos n else Zpos n * 2 ^ (- e))%Z).
  set (b := (if 0 <=? e then Zpos d * 2 ^ e else Zpos d)%Z).
  destruct (scaled_fraction n d e a b eq_refl eq_refl eq_refl) as (B & L & F).
  destruct (Z.ltb_spec a (b * 2 ^ 53)) as [U | U].
  - apply rounded_near; auto using pow2_pos.
  - apply rounded_near; try lia; [ apply pow2_pos | ].
    rewrite pow2_succ, inject_Z_mult.
    transitivity (2 * ((Zpos n # d) * inject_Z b)); [ ring | ].
    rewrite F. ring.
Qed.

Lemma binary64_near (x : Q) :
  Qabs (binary64 x - x) <= Qabs x * ulp_half /\
  (0 < x -> 0 < binary64 x) /\ (x < 0 -> binary64 x < 0) /\
  (x == 0 -> binary64 x == 0).
Proof.
  destruct x as [[ | n | n] d]; unfold binary64; cbn [Qnum Qden].
  - repeat split; try (intros; reflexivity); try (intros L; discriminate L).
  - destruct (binary64_pos_near n d) as [P E].
    repeat split; try (intros L; discriminate L); auto.
  - destruct (binary64_pos_near n d) as [P E].
    repeat split; try (intros L; discriminate L).
    + change (Z.neg n # d) with (- (Zpos n # d)).
      rewrite Qabs_opp.
      assert (S : - binary64_pos n d - - (Zpos n # d)
                  == - (binary64_pos n d - (Zpos n # d))) by ring.
      rewrite S, Qabs_opp.
      rewrite (Qabs_pos (Zpos n # d)); [ exact E | discriminate ].
    + intros _. lra.
Qed.

Lemma binary64_relative (x : Q) :
  0 < x ->
  0 < binary64 x /\
  (1 - ulp_half) * x <= binary64 x /\ binary64 x <= (1 + ulp_half) * x.
Proof.
  intros P. destruct (binary64_near x) as (E & Pos & _ & _).
  rewrite (Qabs_pos x) in E by lra.
  apply Qabs_Qle_condition in E as [E1 E2].
  split; [ auto | split; lra ].
Qed.



End Rounding.

Set Implicit Arguments.

Create Rewrite HintDb qbool.
#[local] Hint Rewrite Qltb_lt Qltb_nlt Qleb_le Qleb_nle : qbool.

(* ===================================================================== *)
(** ** The shape classifier *)
(* ===================================================================== *)

Section DetectFacts.
Context `{Cv2}.
Import ShapeDetector.

(** C1. [detect] simplifies the contour with Douglas-Peucker at epsilon =
    0.04 times the closed perimeter.  When the simplified polygon has exactly
    4 vertices, the verdict is the square label if the aspect ratio
    ar = w / h of its bounding rectangle satisfies 0.95 <= ar <= 1.05 and the
    rectangle label otherwise; any other vertex count gives the unknown label.
    Hence the verdict is square or rectangle if and only if the polygon has 4
    vertices.  The height of the bounding rectangle of four points is not
    zero (OpenCV counts pixels, so it is at least 1); with a zero height the
    division of line 28 would raise. *)
Theorem C1_detect_polygon_step (sd : ShapeDetector.t) (c approx : ndarray)
    (x y w h : Z) :
  approx = approxPolyDP c (0.04 * arcLength c true)%Q true ->
  boundingRect approx = (x, y, w, h) ->
  (List.length approx = 4%nat -> h <> 0%Z) ->
  (List.length approx = 4%nat ->
   (0.95 <= float w / float h /\ float w / float h <= 1.05)%Q ->
   detect sd c = Ok square) /\
  (List.length approx = 4%nat ->
   ~ (0.95 <= float w / float h /\ float w / float h <= 1.05)%Q ->
   detect sd c = Ok rectangle) /\
  (List.length approx <> 4%nat -> detect sd c = Ok unknown_shape) /\
  (List.length approx = 4%nat <->
   detect sd c = Ok square \/ detect sd c = Ok rectangle).
Proof.
  intros Happrox Hrect Hh. unfold detect. rewrite <- Happrox, Hrect.
  destruct (Nat.eqb_spec (List.length approx) 4) as [L | L].
  - specialize (Hh L). rewrite (float_div_ok _ (float_nonzero Hh)). simpl.
    destruct (Qleb 0.95 (float w / float h)) eqn:E1;
      destruct (Qleb (float w / float h) 1.05) eqn:E2; simpl;
      autorewrite with qbool in E1, E2;
      repeat split; intros; try reflexivity; try tauto; auto.
  - repeat split; try reflexivity; try contradiction.
    intros [E | E]; discriminate E.
Qed.

End DetectFacts.

(* ===================================================================== *)
(** ** The partitioner *)
(* ===================================================================== *)

Section PartitionFacts.
Context `{Cv2}.
Import DetectShapes.

Lemma bind_ok_inv {A B : Type} (m : result A) (k : A -> result B) (b : B) :
  bind m k = Ok b -> exists a, m = Ok a /\ k a = Ok b.
Proof.
  destruct m as [a | e]; simpl; intros E; [ eauto | discriminate ].
Qed.

Lemma merge_empty_r (st : Buckets) : merge st empty = st.
Proof.
  destruct st as [[c r] o]. unfold merge, empty. now rewrite !app_nil_r.
Qed.

Lemma merge_assoc (s d e : Buckets) : merge (merge s d) e = merge s (merge d e).
Proof.
  destruct s as [[c r] o], d as [[dc dr] do], e as [[ec er] eo].
  unfold merge. now rewrite !app_assoc.
Qed.

Lemma select_merge (which : Bucket) (s d : Buckets) :
  select which (merge s d) = select which s ++ select which d.
Proof.
  destruct s as [[c r] o], d as [[dc dr] do], which; reflexivity.
Qed.

Lemma select_single (which : Bucket) (cnt : ndarray) :
  select which (single which cnt) = [cnt].
Proof.
  destruct which; reflexivity.
Qed.

Lemma positive_not_degenerate (area perimeter : Q) :
  (0 < area)%Q -> (0 < perimeter)%Q ->
  Qleb perimeter 0 || Qleb area 0 = false.
Proof.
  intros A P. apply orb_false_iff. split; apply Qleb_nle; lra.
Qed.

Lemma circularity_ok (area perimeter : Q) :
  (0 < perimeter)%Q ->
  circularity area perimeter = Ok (circularity_of area perimeter).
Proof.
  intros P. unfold circularity, float_div64, float_pow64.
  replace (Qeqb (binary64 (perimeter ^ 2)) 0) with false; [ reflexivity | ].
  symmetry. apply Qeqb_neq.
  assert (S : (0 < perimeter ^ 2)%Q) by (simpl; nra).
  destruct (binary64_relative _ S) as [Pos _]. lra.
Qed.

(** The state only accumulates: an iteration appends to the buckets what it
    would put into empty ones. *)
Lemma classify_step_merge (sd : ShapeDetector.t) (thr : Q) (st : Buckets) (x : pyobj) :
  classify_step sd thr st x
  = (d <- classify_step sd thr empty x ;; Ok (merge st d)).
Proof.
  destruct st as [[c r] o].
  destruct x; simpl; try (unfold merge, empty; now rewrite !app_nil_r).
  destruct (Qleb (arcLength a true) 0 || Qleb (contourArea a) 0).
  { simpl. now rewrite !app_nil_r. }
  destruct (circularity (contourArea a) (arcLength a true)) as [circ | e];
    simpl; [ | reflexivity ].
  destruct (Qltb thr circ).
  { simpl. now rewrite !app_nil_r. }
  destruct (ShapeDetector.detect sd a) as [shape | e]; simpl; [ | reflexivity ].
  destruct (String.eqb shape ShapeDetector.rectangle
            || String.eqb shape ShapeDetector.square).
  - destruct (fills_box (contourArea a)
                (contourArea (np_intp (boxPoints (minAreaRect a))))) as [keep | e];
      simpl; [ | reflexivity ].
    destruct keep; simpl; now rewrite !app_nil_r.
  - simpl. now rewrite !app_nil_r.
Qed.

Lemma classify_loop_merge (sd : ShapeDetector.t) (thr : Q) (l : list pyobj) :
  forall st : Buckets,
    classify_loop sd thr l st
    = (d <- classify_loop sd thr l empty ;; Ok (merge st d)).
Proof.
  induction l as [ | x l IH]; intros st; cbn [classify_loop].
  - cbn [bind]. now rewrite merge_empty_r.
  - rewrite (classify_step_merge sd thr st x).
    destruct (classify_step sd thr empty x) as [d1 | e]; cbn [bind]; [ | reflexivity ].
    rewrite (IH (merge st d1)), (IH d1).
    destruct (classify_loop sd thr l empty) as [d2 | e]; cbn [bind]; [ | reflexivity ].
    now rewrite merge_assoc.
Qed.

Lemma classify_loop_app (sd : ShapeDetector.t) (thr : Q) (l1 l2 : list pyobj) :
  forall st : Buckets,
    classify_loop sd thr (l1 ++ l2) st
    = (st' <- classify_loop sd thr l1 st ;; classify_loop sd thr l2 st').
Proof.
  induction l1 as [ | x l1 IH]; intros st; cbn [classify_loop app bind];
    [ reflexivity | ].
  destruct (classify_step sd thr st x) as [st1 | e]; cbn [bind];
    [ apply IH | reflexivity ].
Qed.

(** The result of a batch, cut at one of its elements. *)
Lemma classify_loop_split (sd : ShapeDetector.t) (thr : Q)
    (l1 l2 : list pyobj) (x : pyobj) :
  classify_loop sd thr (l1 ++ x :: l2) empty
  = (d1 <- classify_loop sd thr l1 empty ;;
     dx <- classify_step sd thr empty x ;;
     d2 <- classify_loop sd thr l2 empty ;;
     Ok (merge (merge d1 dx) d2)).
Proof.
  rewrite classify_loop_app.
  destruct (classify_loop sd thr l1 empty) as [d1 | e]; cbn [bind classify_loop];
    [ | reflexivity ].
  rewrite (classify_step_merge sd thr d1 x).
  destruct (classify_step sd thr empty x) as [dx | e]; cbn [bind]; [ | reflexivity ].
  apply classify_loop_merge.
Qed.

Lemma classify_loop_skip (sd : ShapeDetector.t) (thr : Q) (l : list pyobj) :
  forall st : Buckets,
    classify_loop sd thr l st = classify_loop sd thr (filter is_ndarray l) st.
Proof.
  induction l as [ | x l IH]; intros st; [ reflexivity | ].
  destruct x; cbn [classify_loop filter is_ndarray];
    try (destruct st as [[c r] o]; apply IH).
  destruct (classify_step sd thr st (PyArray a)) as [st1 | e]; cbn [bind];
    [ apply IH | reflexivity ].
Qed.

Lemma classify_step_regular (sd : ShapeDetector.t) (thr : Q)
    (c r o : list ndarray) (cnt : ndarray) :
  (0 < contourArea cnt)%Q -> (0 < arcLength cnt true)%Q ->
  classify_step sd thr (c, r, o) (PyArray cnt)
  = if Qltb thr (circularity_of (contourArea cnt) (arcLength cnt true))
    then Ok (c ++ [cnt], r, o)
    else
      shape <- ShapeDetector.detect sd cnt ;;
      if String.eqb shape ShapeDetector.rectangle
         || String.eqb shape ShapeDetector.square
      then
        keep <- fills_box (contourArea cnt) (contourArea (integer_box cnt)) ;;
        if keep then Ok (c, r ++ [cnt], o) else Ok (c, r, o ++ [cnt])
      else Ok (c, r, o ++ [cnt]).
Proof.
  intros A P. cbn [classify_step].
  rewrite (positive_not_degenerate A P), (circularity_ok _ P).
  reflexivity.
Qed.

(** The guarded division of line 62 never raises, and it holds exactly when
    the box has an area and the contour fills more than 0.95 of it. *)
Lemma fills_box_ok (area box_area : Q) :
  fills_box area box_area
  = Ok (Qltb 0 box_area && Qltb 0.95 (area / box_area)).
Proof.
  unfold fills_box. destruct (Qltb 0 box_area) eqn:E; [ | reflexivity ].
  apply Qltb_lt in E. rewrite float_div_ok; [ reflexivity | lra ].
Qed.

Lemma fill_ratio_positive_box (area box_area : Q) :
  (0 < area)%Q -> ~ (box_area == 0)%Q -> (0.95 < area / box_area)%Q ->
  (0 < box_area)%Q.
Proof.
  intros A N R. apply Qnot_le_lt. intros L.
  assert (B : (0 < - box_area)%Q) by lra.
  assert (E : (area / box_area * - box_area == - area)%Q) by (field; exact N).
  assert (M : (0.95 * - box_area < area / box_area * - box_area)%Q)
    by (apply Qmult_lt_r; assumption).
  assert (Z : (0 < 0.95 * - box_area)%Q) by (apply Qmult_lt_0_compat; lra).
  lra.
Qed.

Lemma fill_ratio_nonzero_box (area box_area : Q) :
  (0.95 < area / box_area)%Q -> ~ (box_area == 0)%Q.
Proof.
  intros R E. rewrite E in R. unfold Qdiv in R.
  change (/ 0)%Q with 0%Q in R. rewrite Qmult_0_r in R.
  revert R. apply Qle_not_lt. discriminate.
Qed.

Lemma fills_box_true (area box_area : Q) :
  (0 < area)%Q ->
  Qltb 0 box_area && Qltb 0.95 (area / box_area) = true
  <-> (0.95 < area / box_area)%Q.
Proof.
  intros A. rewrite andb_true_iff, !Qltb_lt. split.
  - intros [_ R]. exact R.
  - intros R. split; [ | exact R ].
    exact (fill_ratio_positive_box A (fill_ratio_nonzero_box R) R).
Qed.



(** C3. For a contour that reaches [detect] and is classified as rectangle or
    square, the partitioner takes the minimum-area rectangle, converts its
    four corner points to integers ([np.intp], which rounds toward zero) and
    computes the area of that box.  The contour is appended to the rects if
    and only if contour_area / box_area > 0.95, and to the others otherwise.
    A box without area has no ratio: line 62 tests [box_area > 0] first, and
    the contour goes to the others. *)
Theorem C3_fill_ratio (sd : ShapeDetector.t) (thr C : Q)
    (circles rects others : list ndarray) (cnt : ndarray) (shape : string) :
  (0 < contourArea cnt)%Q -> (0 < arcLength cnt true)%Q ->
  circularity (contourArea cnt) (arcLength cnt true) = Ok C ->
  ~ (thr < C)%Q ->
  ShapeDetector.detect sd cnt = Ok shape ->
  shape = ShapeDetector.rectangle \/ shape = ShapeDetector.square ->
  integer_box cnt = np_intp (boxPoints (minAreaRect cnt)) /\
  ((0.95 < contourArea cnt / contourArea (integer_box cnt))%Q ->
   classify_step sd thr (circles, rects, others) (PyArray cnt)
   = Ok (circles, rects ++ [cnt], others)) /\
  (~ (0.95 < contourArea cnt / contourArea (integer_box cnt))%Q ->
   classify_step sd thr (circles, rects, others) (PyArray cnt)
   = Ok (circles, rects, others ++ [cnt])) /\
  ((contourArea (integer_box cnt) == 0)%Q ->
   classify_step sd thr (circles, rects, others) (PyArray cnt)
   = Ok (circles, rects, others ++ [cnt])).
Proof.
  intros A P HC L D S. split; [ reflexivity | ].
  assert (EC : (circularity_of (contourArea cnt) (arcLength cnt true)) = C).
  { pose proof (circularity_ok (contourArea cnt) P) as K. congruence. }
  apply Qltb_nlt in L.
  rewrite (classify_step_regular sd thr circles rects others cnt A P), EC, L, D.
  cbn [bind].
  assert (E : String.eqb shape ShapeDetector.rectangle
              || String.eqb shape ShapeDetector.square = true)
    by (destruct S as [-> | ->]; reflexivity).
  rewrite E, fills_box_ok. cbn [bind].
  pose proof (fills_box_true (contourArea (integer_box cnt)) A) as F.
  destruct (Qltb 0 (contourArea (integer_box cnt))
            && Qltb 0.95 (contourArea cnt / contourArea (integer_box cnt))).
  - split; [ reflexivity | split ].
    + intros N. exfalso. apply N, F. reflexivity.
    + intros Z. exfalso.
      apply (@fill_ratio_nonzero_box (contourArea cnt) (contourArea (integer_box cnt)));
        [ now apply F | exact Z ].
  - split; [ | split; reflexivity ]. intros Y. apply F in Y. discriminate Y.
Qed.

(** C5. [classify_contours] raises [TypeError] when its argument is not a
    list or a tuple (a string, for instance), raises [ValueError] when the
    list or tuple is empty, and skips the elements that are not arrays: such
    an element leaves the buckets as they are and raises nothing, so the
    result is the one of the loop over the arrays alone. *)
Theorem C5_input_validation (thr : Q) :
  (forall contours, is_sequence contours = false ->
     exists msg, classify_contours contours thr = Raise (TypeError msg)) /\
  (exists msg, classify_contours (PyStr "not a list") thr = Raise (TypeError msg)) /\
  (exists msg, classify_contours (PyList []) thr = Raise (ValueError msg) /\
               classify_contours (PyTuple []) thr = Raise (ValueError msg)) /\
  (forall sd st x, is_ndarray x = false -> classify_step sd thr st x = Ok st) /\
  (forall l, l <> [] ->
     classify_contours (PyList l) thr
     = classify_loop ShapeDetector.new thr (filter is_ndarray l) empty /\
     classify_contours (PyTuple l) thr
     = classify_loop ShapeDetector.new thr (filter is_ndarray l) empty) /\
  (forall l, l <> [] -> forallb (fun x => negb (is_ndarray x)) l = true ->
     classify_contours (PyList l) thr = Ok empty /\
     classify_contours (PyTuple l) thr = Ok empty).
Proof.
  assert (Skip : forall l, l <> [] ->
     classify_contours (PyList l) thr
     = classify_loop ShapeDetector.new thr (filter is_ndarray l) empty /\
     classify_contours (PyTuple l) thr
     = classify_loop ShapeDetector.new thr (filter is_ndarray l) empty).
  { intros l N. destruct l as [ | x l]; [ contradiction | ].
    unfold classify_contours.
    split; apply (classify_loop_skip ShapeDetector.new thr (x :: l) empty). }
  assert (None_left : forall l : list pyobj,
     forallb (fun x => negb (is_ndarray x)) l = true -> filter is_ndarray l = []).
  { induction l as [ | x l IH]; [ reflexivity | ].
    cbn [forallb filter]. intros F. apply andb_true_iff in F as [X R].
    destruct (is_ndarray x); [ discriminate X | now apply IH ]. }
  split; [ | split; [ | split; [ | split; [ | split ] ] ] ].
  - intros contours S. destruct contours; try discriminate S; eexists; reflexivity.
  - eexists; reflexivity.
  - eexists; split; reflexivity.
  - intros sd [[c r] o] x N. destruct x; try discriminate N; reflexivity.
  - exact Skip.
  - intros l N F. destruct (Skip l N) as [-> ->].
    rewrite (None_left l F). split; reflexivity.
Qed.

(** C8. A contour whose perimeter or area is not positive is appended to the
    others, and the iteration raises nothing.  The rest of the batch is
    processed as without it: if the contours before it give the buckets
    (c1, r1, o1) and the contours after it give (c2, r2, o2), the whole batch
    gives (c1 ++ c2, r1 ++ r2, o1 ++ cnt :: o2), which is the result of the
    batch without the contour with the contour added to the others; and the
    batch raises only what the batch without the contour raises. *)
Theorem C8_degenerate_contour (thr : Q) (cnt : ndarray) :
  (arcLength cnt true <= 0 \/ contourArea cnt <= 0)%Q ->
  (forall sd c r o,
     classify_step sd thr (c, r, o) (PyArray cnt) = Ok (c, r, o ++ [cnt])) /\
  (forall pre post c1 r1 o1 c2 r2 o2,
     classify_loop ShapeDetector.new thr pre empty = Ok (c1, r1, o1) ->
     classify_loop ShapeDetector.new thr post empty = Ok (c2, r2, o2) ->
     classify_loop ShapeDetector.new thr (pre ++ post) empty
     = Ok (c1 ++ c2, r1 ++ r2, o1 ++ o2) /\
     classify_contours (PyList (pre ++ PyArray cnt :: post)) thr
     = Ok (c1 ++ c2, r1 ++ r2, o1 ++ cnt :: o2)) /\
  (forall pre post e,
     classify_loop ShapeDetector.new thr (pre ++ post) empty = Raise e <->
     classify_contours (PyList (pre ++ PyArray cnt :: post)) thr = Raise e).
Proof.
  intros Deg.
  assert (Step : forall sd c r o,
     classify_step sd thr (c, r, o) (PyArray cnt) = Ok (c, r, o ++ [cnt])).
  { intros sd c r o. cbn [classify_step].
    replace (Qleb (arcLength cnt true) 0 || Qleb (contourArea cnt) 0) with true;
      [ reflexivity | ].
    symmetry. apply orb_true_iff.
    destruct Deg as [D | D]; [ left | right ]; now apply Qleb_le. }
  assert (Whole : forall pre post,
     classify_contours (PyList (pre ++ PyArray cnt :: post)) thr
     = (d1 <- classify_loop ShapeDetector.new thr pre empty ;;
        d2 <- classify_loop ShapeDetector.new thr post empty ;;
        Ok (merge (merge d1 (single Others cnt)) d2))).
  { intros pre post. unfold classify_contours.
    destruct (pre ++ PyArray cnt :: post) eqn:E.
    - destruct pre; discriminate E.
    - rewrite <- E, classify_loop_split.
      unfold empty at 2. rewrite Step. reflexivity. }
  assert (Rest : forall pre post,
     classify_loop ShapeDetector.new thr (pre ++ post) empty
     = (d1 <- classify_loop ShapeDetector.new thr pre empty ;;
        d2 <- classify_loop ShapeDetector.new thr post empty ;;
        Ok (merge d1 d2))).
  { intros pre post. rewrite classify_loop_app.
    destruct (classify_loop ShapeDetector.new thr pre empty) as [d1 | e];
      cbn [bind]; [ apply classify_loop_merge | reflexivity ]. }
  split; [ exact Step | split ].
  - intros pre post c1 r1 o1 c2 r2 o2 E1 E2.
    rewrite Rest, Whole, E1, E2. cbn [bind merge single].
    rewrite !app_nil_r, <- app_assoc. split; reflexivity.
  - intros pre post e. rewrite Rest, Whole.
    destruct (classify_loop ShapeDetector.new thr pre empty) as [d1 | e1];
      cbn [bind]; [ | reflexivity ].
    destruct (classify_loop ShapeDetector.new thr post empty) as [d2 | e2];
      cbn [bind]; [ | reflexivity ].
    split; discriminate.
Qed.

(** C9. Every bucket keeps the order of the input: if the contour [a] comes
    before the contour [b] in the input list (or tuple) and both are placed
    in the same bucket, then [a] comes before [b] in that bucket of the
    result. *)
Theorem C9_order_preserved (thr : Q) (contours : pyobj) (l : list pyobj)
    (c r o : list ndarray) (which : Bucket) (a b : ndarray) :
  contours = PyList l \/ contours = PyTuple l ->
  classify_contours contours thr = Ok (c, r, o) ->
  precedes (PyArray a) (PyArray b) l ->
  lands_in thr which a ->
  lands_in thr which b ->
  precedes a b (select which (c, r, o)).
Proof.
  intros Seq Run (l1 & l2 & l3 & ->) La Lb.
  assert (Loop : classify_loop ShapeDetector.new thr
                   (l1 ++ PyArray a :: l2 ++ PyArray b :: l3) empty = Ok (c, r, o)).
  { destruct Seq as [-> | ->]; unfold classify_contours in Run;
      (destruct (l1 ++ PyArray a :: l2 ++ PyArray b :: l3); [ discriminate Run | exact Run ]). }
  clear Run Seq.
  rewrite classify_loop_split in Loop. unfold lands_in in La, Lb.
  apply bind_ok_inv in Loop as (d1 & _ & Loop).
  rewrite La in Loop. cbn [bind] in Loop.
  apply bind_ok_inv in Loop as (d23 & Tail & Loop).
  rewrite classify_loop_split in Tail.
  apply bind_ok_inv in Tail as (d2 & _ & Tail).
  rewrite Lb in Tail. cbn [bind] in Tail.
  apply bind_ok_inv in Tail as (d3 & _ & Tail).
  injection Tail as <-. injection Loop as Loop. rewrite <- Loop.
  exists (select which d1), (select which d2), (select which d3).
  rewrite !select_merge, !select_single, <- !app_assoc. reflexivity.
Qed.

End PartitionFacts.

(* ===================================================================== *)
(** ** The colour classifier *)
(* ===================================================================== *)

Section ColorFacts.
Import DetectedFigures.

Lemma out_of_boundsb_true (img : Image) (x y : Z) :
  out_of_boundsb img x y = true <-> out_of_bounds img x y.
Proof.
  unfold out_of_boundsb, out_of_bounds.
  rewrite !orb_true_iff, !Z.ltb_lt, !Z.geb_le. lia.
Qed.

Lemma out_of_boundsb_false (img : Image) (x y : Z) :
  out_of_boundsb img x y = false <-> ~ out_of_bounds img x y.
Proof.
  rewrite <- out_of_boundsb_true.
  destruct (out_of_boundsb img x y); split; intros; congruence.
Qed.

Lemma inRange_withinb (pixel lower upper : Pixel) :
  (inRange pixel lower upper =? 255)%Z = withinb pixel lower upper.
Proof.
  destruct pixel as [[p0 p1] p2], lower as [[l0 l1] l2], upper as [[u0 u1] u2].
  unfold inRange, withinb.
  destruct ((l0 <=? p0) && (p0 <=? u0) && (l1 <=? p1) && (p1 <=? u1)
            && (l2 <=? p2) && (p2 <=? u2))%Z; reflexivity.
Qed.

Lemma withinb_within (pixel lower upper : Pixel) :
  withinb pixel lower upper = true <-> within pixel lower upper.
Proof.
  destruct pixel as [[p0 p1] p2], lower as [[l0 l1] l2], upper as [[u0 u1] u2].
  unfold withinb, within. rewrite !andb_true_iff, !Z.leb_le. lia.
Qed.

Lemma scan_ranges_existsb (pixel : Pixel) (name : string) (l : list (Pixel * Pixel)) :
  scan_ranges pixel name l
  = if existsb (fun lu => withinb pixel (fst lu) (snd lu)) l
    then Some name else None.
Proof.
  induction l as [ | [lower upper] l IH]; [ reflexivity | ].
  cbn [scan_ranges existsb fst snd]. rewrite inRange_withinb.
  destruct (withinb pixel lower upper); [ reflexivity | exact IH ].
Qed.

(** An iteration of the loop over the table: a matching entry returns its
    name, any other entry passes to the next one. *)
Lemma scan_items_cons (pixel : Pixel) (name : string) (r : ColorRange)
    (rest : ColorRanges) :
  scan_items pixel ((name, r) :: rest)
  = if entry_matches pixel r then name else scan_items pixel rest.
Proof.
  destruct r as [lower upper | l]; cbn [scan_items entry_matches].
  - now rewrite inRange_withinb.
  - rewrite scan_ranges_existsb.
    now destruct (existsb (fun lu => withinb pixel (fst lu) (snd lu)) l).
Qed.

Lemma scan_items_first_match (pixel : Pixel) (table : ColorRanges) :
  scan_items pixel table = first_match pixel table.
Proof.
  induction table as [ | [name r] rest IH]; [ reflexivity | ].
  rewrite scan_items_cons. unfold first_match in *. cbn [find snd].
  destruct (entry_matches pixel r); [ reflexivity | exact IH ].
Qed.

Lemma getitem_in_bounds (img : Image) (x y : Z) :
  ~ out_of_bounds img x y -> getitem img y x = Ok (pixels img y x).
Proof.
  unfold out_of_bounds, getitem. intros B.
  replace ((- shape0 img <=? y) && (y <? shape0 img)
           && (- shape1 img <=? x) && (x <? shape1 img))%Z with true.
  - rewrite !Z.mod_small by lia. reflexivity.
  - symmetry. rewrite !andb_true_iff, !Z.leb_le, !Z.ltb_lt. lia.
Qed.

(** The classifier never raises: the bounds test guards the indexing. *)
Lemma get_color_at_point_total (hsv : Image) (x y : Z) (table : ColorRanges) :
  get_color_at_point hsv x y table = Ok (color_at hsv x y table).
Proof.
  unfold get_color_at_point, color_at. fold (out_of_boundsb hsv x y).
  destruct (out_of_boundsb hsv x y) eqn:B; [ reflexivity | ].
  apply out_of_boundsb_false in B. rewrite (getitem_in_bounds B).
  cbn [bind]. now rewrite scan_items_first_match.
Qed.

(** C4. For every pixel and table the classifier tries the entries in the
    order of the table and returns the name of the first one that matches,
    whatever follows it; with no matching entry it returns 'unknown'.  An
    interval matches when every channel lies between its bounds, both
    included; an entry with a list of intervals matches when any interval of
    the list does.  So of two matching entries the earlier one is returned. *)
Theorem C4_first_match_wins (pixel : Pixel) :
  (forall lower upper,
     inRange pixel lower upper = 255%Z <-> within pixel lower upper) /\
  (forall lower upper,
     entry_matches pixel (RangePair lower upper) = true
     <-> within pixel lower upper) /\
  (forall l,
     entry_matches pixel (RangeList l) = true
     <-> exists lower upper, In (lower, upper) l /\ within pixel lower upper) /\
  (forall table, scan_items pixel table = first_match pixel table) /\
  (forall pre name r post,
     Forall (fun entry => entry_matches pixel (snd entry) = false) pre ->
     entry_matches pixel r = true ->
     scan_items pixel (pre ++ (name, r) :: post) = name) /\
  (forall pre name1 r1 mid name2 r2 post,
     Forall (fun entry => entry_matches pixel (snd entry) = false) pre ->
     entry_matches pixel r1 = true ->
     entry_matches pixel r2 = true ->
     scan_items pixel (pre ++ (name1, r1) :: mid ++ (name2, r2) :: post) = name1) /\
  (forall table,
     Forall (fun entry => entry_matches pixel (snd entry) = false) table ->
     scan_items pixel table = "unknown") /\
  (forall hsv x y table,
     pixels hsv y x = pixel -> ~ out_of_bounds hsv x y ->
     get_color_at_point hsv x y table = Ok (first_match pixel table)).
Proof.
  assert (First : forall pre name r post,
     Forall (fun entry => entry_matches pixel (snd entry) = false) pre ->
     entry_matches pixel r = true ->
     scan_items pixel (pre ++ (name, r) :: post) = name).
  { intros pre name r post N M.
    induction N as [ | [n0 r0] pre N0 N IH]; cbn [app].
    - now rewrite scan_items_cons, M.
    - cbn [snd] in N0. now rewrite scan_items_cons, N0. }
  split; [ | split; [ | split; [ | split; [ | split; [ | split; [ | split ] ] ] ] ] ].
  - intros lower upper. rewrite <- withinb_within, <- inRange_withinb.
    apply iff_sym, Z.eqb_eq.
  - intros lower upper. apply withinb_within.
  - intros l. cbn [entry_matches]. rewrite existsb_exists. split.
    + intros ([lower upper] & I & W). exists lower, upper.
      split; [ exact I | now apply withinb_within ].
    + intros (lower & upper & I & W). exists (lower, upper).
      split; [ exact I | now apply withinb_within ].
  - apply scan_items_first_match.
  - exact First.
  - intros pre name1 r1 mid name2 r2 post N M1 _. now apply First.
  - intros table N. induction N as [ | [n0 r0] rest N0 N IH]; [ reflexivity | ].
    cbn [snd] in N0. now rewrite scan_items_cons, N0.
  - intros hsv x y table <- B. rewrite get_color_at_point_total.
    unfold color_at. apply out_of_boundsb_false in B. now rewrite B.
Qed.

(** C6. At a point outside the image (x < 0, y < 0, x >= width or
    y >= height) the classifier returns 'unknown' and raises nothing, for
    every image and every table. *)
Theorem C6_out_of_bounds_unknown (hsv : Image) (x y : Z) (table : ColorRanges) :
  (x < 0 \/ y < 0 \/ x >= shape1 hsv \/ y >= shape0 hsv)%Z ->
  get_color_at_point hsv x y table = Ok "unknown".
Proof.
  intros B. unfold get_color_at_point.
  replace ((x <? 0) || (y <? 0) || (x >=? shape1 hsv) || (y >=? shape0 hsv))%Z
    with true; [ reflexivity | ].
  symmetry. rewrite !orb_true_iff, !Z.ltb_lt, !Z.geb_le. lia.
Qed.

End ColorFacts.

(* ===================================================================== *)
(** ** The object labeler *)
(* ===================================================================== *)

Section LabelFacts.
Context `{Cv2}.
Import DetectedFigures.

Lemma cvtColor_out_of_boundsb (image : Image) (x y : Z) :
  out_of_boundsb (cvtColor_BGR2HSV image) x y = out_of_boundsb image x y.
Proof. reflexivity. Qed.

(** An iteration of the labeler never raises and appends [labelled]. *)
Lemma label_step_labelled (image : Image) (table : ColorRanges)
    (results : list Labelled) (item : ndarray * string) :
  label_step image (cvtColor_BGR2HSV image) table results item
  = Ok (results ++ labelled image table item).
Proof.
  destruct item as [contour shape_label].
  unfold label_step, labelled, centroid_pixel. cbn [fst snd].
  destruct (Qltb (contourArea contour) 100); cbn [orb].
  { now rewrite app_nil_r. }
  destruct (Qeqb (m00 (moments contour)) 0) eqn:Z; cbn [negb].
  { now rewrite app_nil_r. }
  apply Qeqb_neq in Z. rewrite !(float_div_ok _ Z). cbn [bind].
  fold (out_of_boundsb image (int (m10 (moments contour) / m00 (moments contour)))
                             (int (m01 (moments contour) / m00 (moments contour)))).
  rewrite get_color_at_point_total. unfold color_at at 1.
  rewrite cvtColor_out_of_boundsb.
  destruct (out_of_boundsb image _ _) eqn:B; cbn [bind]; unfold color_at;
    rewrite cvtColor_out_of_boundsb, B; reflexivity.
Qed.

Lemma label_loop_labelled (image : Image) (table : ColorRanges)
    (pairs : list (ndarray * string)) :
  forall results : list Labelled,
    label_loop image (cvtColor_BGR2HSV image) table pairs results
    = Ok (results ++ flat_map (labelled image table) pairs).
Proof.
  induction pairs as [ | item pairs IH]; intros results; cbn [label_loop flat_map].
  - now rewrite app_nil_r.
  - rewrite label_step_labelled. cbn [bind]. rewrite IH. now rewrite app_assoc.
Qed.

Lemma detect_shapes_and_colors_labelled (image_path : string) (image : Image)
    (contours_list : list ndarray) (shape_labels : list string)
    (color_hsv_ranges : option ColorRanges) :
  imread image_path = Some image ->
  detect_shapes_and_colors image_path contours_list shape_labels color_hsv_ranges
  = Ok (flat_map (labelled image (table_of color_hsv_ranges))
                 (combine contours_list shape_labels)).
Proof.
  intros Load. unfold detect_shapes_and_colors. rewrite Load.
  fold (table_of color_hsv_ranges). apply label_loop_labelled.
Qed.

Lemma length_labelled (image : Image) (table : ColorRanges)
    (pairs : list (ndarray * string)) :
  (List.length (flat_map (labelled image table) pairs) <= List.length pairs)%nat.
Proof.
  induction pairs as [ | item pairs IH]; cbn [flat_map]; [ apply le_n | ].
  rewrite length_app. cbn [List.length].
  assert (L : (List.length (labelled image table item) <= 1)%nat).
  { unfold labelled. destruct (_ || _); cbn [List.length]; lia. }
  lia.
Qed.

(** C7 (amended). When the image loads, the labeler returns, in the order of
    the input pairs, one record for every pair it keeps.  A pair is dropped
    when the area of the contour is below 100 or its moment m00 is 0.  For
    any other pair the record is (contour, shape_label, color), where the
    sampled pixel is cx = int(m10/m00), cy = int(m01/m00), both truncated
    toward zero, and color is 'unknown' when (cx, cy) is outside the image
    and the answer of the colour classifier at (cx, cy) otherwise. *)
Theorem C7_labeler_records (image_path : string) (image : Image)
    (contours_list : list ndarray) (shape_labels : list string)
    (color_hsv_ranges : option ColorRanges) :
  imread image_path = Some image ->
  detect_shapes_and_colors image_path contours_list shape_labels color_hsv_ranges
  = Ok (flat_map (labelled image (table_of color_hsv_ranges))
                 (combine contours_list shape_labels)) /\
  (forall table contour shape_label,
     ((contourArea contour < 100)%Q \/ (m00 (moments contour) == 0)%Q) ->
     labelled image table (contour, shape_label) = []) /\
  (forall table contour shape_label cx cy,
     ~ (contourArea contour < 100)%Q -> ~ (m00 (moments contour) == 0)%Q ->
     cx = int (m10 (moments contour) / m00 (moments contour)) ->
     cy = int (m01 (moments contour) / m00 (moments contour)) ->
     exists color,
       labelled image table (contour, shape_label) = [(contour, shape_label, color)] /\
       (out_of_bounds image cx cy -> color = "unknown") /\
       (~ out_of_bounds image cx cy ->
        get_color_at_point (cvtColor_BGR2HSV image) cx cy table = Ok color)).
Proof.
  intros Load. split; [ | split ].
  - now apply detect_shapes_and_colors_labelled.
  - intros table contour shape_label Drop. unfold labelled. cbn [fst].
    replace (Qltb (contourArea contour) 100 || Qeqb (m00 (moments contour)) 0)
      with true; [ reflexivity | ].
    symmetry. apply orb_true_iff.
    destruct Drop as [D | D]; [ left; now apply Qltb_lt | right; now apply Qeqb_eq ].
  - intros table contour shape_label cx cy A M -> ->.
    apply Qltb_nlt in A. apply Qeqb_neq in M.
    unfold labelled, centroid_pixel. cbn [fst snd]. rewrite A, M. cbn [orb].
    eexists. split; [ reflexivity | ]. split.
    + intros B. unfold color_at. rewrite cvtColor_out_of_boundsb.
      apply out_of_boundsb_true in B. now rewrite B.
    + intros _. apply get_color_at_point_total.
Qed.

(** C10. Lists of unequal lengths raise nothing: [zip] stops at the end of
    the shorter list, so the labeler does what it does on the first
    min(len(contours_list), len(shape_labels)) elements of both lists, the
    surplus of the longer list is never looked at, and with a loadable image
    the call returns at most that many records. *)
Theorem C10_unequal_lengths (image_path : string)
    (contours_list : list ndarray) (shape_labels : list string)
    (color_hsv_ranges : option ColorRanges) :
  detect_shapes_and_colors image_path contours_list shape_labels color_hsv_ranges
  = detect_shapes_and_colors image_path
      (firstn (Nat.min (List.length contours_list) (List.length shape_labels)) contours_list)
      (firstn (Nat.min (List.length contours_list) (List.length shape_labels)) shape_labels)
      color_hsv_ranges /\
  (forall surplus,
     (List.length shape_labels <= List.length contours_list)%nat ->
     detect_shapes_and_colors image_path (contours_list ++ surplus) shape_labels
       color_hsv_ranges
     = detect_shapes_and_colors image_path contours_list shape_labels
         color_hsv_ranges) /\
  (forall surplus,
     (List.length contours_list <= List.length shape_labels)%nat ->
     detect_shapes_and_colors image_path contours_list (shape_labels ++ surplus)
       color_hsv_ranges
     = detect_shapes_and_colors image_path contours_list shape_labels
         color_hsv_ranges) /\
  (forall image, imread image_path = Some image ->
     exists results,
       detect_shapes_and_colors image_path contours_list shape_labels color_hsv_ranges
       = Ok results /\
       (List.length results
        <= Nat.min (List.length contours_list) (List.length shape_labels))%nat).
Proof.
  assert (Zip : forall (A B : Type) (l : list A) (l' s : list B),
            (List.length l <= List.length l')%nat ->
            combine l (l' ++ s) = combine l l').
  { intros A B l. induction l as [ | a l IH]; intros [ | b l'] s L;
      cbn [combine app List.length] in *; try reflexivity; try lia.
    f_equal. apply IH. lia. }
  assert (Zip' : forall (A B : Type) (l s : list A) (l' : list B),
            (List.length l' <= List.length l)%nat ->
            combine (l ++ s) l' = combine l l').
  { intros A B l. induction l as [ | a l IH]; intros s [ | b l'] L;
      cbn [combine app List.length] in *; try reflexivity; try lia.
    - now destruct s.
    - f_equal. apply IH. lia. }
  split; [ | split; [ | split ] ].
  - unfold detect_shapes_and_colors.
    rewrite <- combine_firstn, <- length_combine, firstn_all. reflexivity.
  - intros surplus L. unfold detect_shapes_and_colors. now rewrite Zip'.
  - intros surplus L. unfold detect_shapes_and_colors. now rewrite Zip.
  - intros image Load. eexists. split.
    + apply detect_shapes_and_colors_labelled. exact Load.
    + rewrite <- length_combine. apply length_labelled.
Qed.

End LabelFacts.

(* ===================================================================== *)
(** ** The theorems at work on the reference implementation *)
(* ===================================================================== *)

(** The 100 x 100 square has 4 vertices and a bounding rectangle of 101 x 101
    pixels: [detect] answers square. *)
Lemma C1_detect_polygon_step_witness :
  @ShapeDetector.detect RefCv2.cv2 ShapeDetector.new Examples.square100
  = Ok ShapeDetector.square.
Proof.
  refine (proj1 (@C1_detect_polygon_step RefCv2.cv2 ShapeDetector.new
                   Examples.square100 Examples.square100 0 0 101 101
                   eq_refl eq_refl _) eq_refl _).
  - intros _. discriminate.
  - split; vm_compute; discriminate.
Defined.


(** The same rectangle through the whole function: its circularity is the
    float 0.6981317007977318, the test [circularity > circularity_threshold]
    is false at that threshold, and the contour is a rect.  In exact
    arithmetic the quotient is larger than this float. *)
Lemma rect100x50_at_its_circularity :
  (circularity_of 5000 300 == 6288211335136391 # 9007199254740992)%Q /\
  (binary64 0.6981317007977318 == 6288211335136391 # 9007199254740992)%Q /\
  (binary64 0.6981317007977318 < 4 * np_pi * 5000 / (300 * 300))%Q /\
  @DetectShapes.classify_contours RefCv2.cv2
    (PyList [PyArray Examples.rect100x50]) (binary64 0.6981317007977318)
  = Ok ([], [Examples.rect100x50], []).
Proof.
  repeat split; vm_compute; reflexivity.
Qed.

(** The 100 x 100 square has circularity about 0.785, is a square for
    [detect], and fills its box: it is kept in the rects. *)
Lemma C3_fill_ratio_witness :
  @DetectShapes.classify_step RefCv2.cv2 ShapeDetector.new 0.82 ([], [], [])
    (PyArray Examples.square100)
  = Ok ([], [Examples.square100], []).
Proof.
  refine (proj1 (proj2 (@C3_fill_ratio RefCv2.cv2 ShapeDetector.new 0.82
                          _ [] [] []
                          Examples.square100 ShapeDetector.square
                          eq_refl eq_refl _ _ _ (or_intror eq_refl))) _).
  - vm_compute. reflexivity.
  - vm_compute. discriminate.
  - vm_compute. reflexivity.
  - vm_compute. reflexivity.
Defined.

(** In the default table the ranges of green and of yellow both hold the hue
    35; green comes first and is the answer. *)
Lemma C4_first_match_wins_witness :
  DetectedFigures.scan_items (35, 100, 100)%Z DetectedFigures.default_color_hsv_ranges
  = "green".
Proof.
  refine (proj1 (proj2 (proj2 (proj2 (proj2 (proj2
            (C4_first_match_wins (35, 100, 100)%Z))))))
            [ ("red", DetectedFigures.RangeList
                        [ ((0, 50, 50)%Z, (10, 255, 255)%Z);
                          ((160, 50, 50)%Z, (180, 255, 255)%Z) ]) ]
            "green" (DetectedFigures.RangePair (35, 50, 50)%Z (85, 255, 255)%Z)
            [ ("blue", DetectedFigures.RangePair (100, 50, 50)%Z (130, 255, 255)%Z) ]
            "yellow" (DetectedFigures.RangePair (20, 50, 50)%Z (35, 255, 255)%Z)
            [] _ eq_refl eq_refl).
  constructor; [ reflexivity | constructor ].
Defined.

(** A number is refused, and a list without arrays gives three empty
    buckets. *)
Lemma C5_input_validation_witness :
  (exists msg,
     @DetectShapes.classify_contours RefCv2.cv2 (PyInt 5) 0.8 = Raise (TypeError msg)) /\
  @DetectShapes.classify_contours RefCv2.cv2 (PyList [PyNone; PyInt 3]) 0.8 = Ok empty.
Proof.
  destruct (@C5_input_validation RefCv2.cv2 0.8) as (Bad & _ & _ & _ & _ & Skip).
  split.
  - apply Bad. reflexivity.
  - apply Skip; [ discriminate | reflexivity ].
Defined.

(** Left of the picture and right of it. *)
Lemma C6_out_of_bounds_unknown_witness :
  DetectedFigures.get_color_at_point RefCv2.picture (-1) 0
    DetectedFigures.default_color_hsv_ranges = Ok "unknown" /\
  DetectedFigures.get_color_at_point RefCv2.picture 200 0
    DetectedFigures.default_color_hsv_ranges = Ok "unknown".
Proof.
  split; apply C6_out_of_bounds_unknown.
  - left. reflexivity.
  - right. right. left. discriminate.
Defined.

(** The square (centroid (50, 50), red half) and the bar (centroid (100, 25),
    green half) are labelled; the segment has no area and gives no record. *)
Lemma C7_labeler_records_witness :
  @DetectedFigures.detect_shapes_and_colors RefCv2.cv2 "shapes.png"
    [Examples.square100; Examples.segment; Examples.bar]
    ["rectangle"; "other"; "rectangle"] None
  = Ok [ (Examples.square100, "rectangle", "red");
         (Examples.bar, "rectangle", "green") ].
Proof.
  refine (eq_trans
            (proj1 (@C7_labeler_records RefCv2.cv2 "shapes.png" RefCv2.picture
                      [Examples.square100; Examples.segment; Examples.bar]
                      ["rectangle"; "other"; "rectangle"] None eq_refl)) _).
  vm_compute. reflexivity.
Defined.

(** C7, the claim as stated, fails.  The contour [corner_square] has area
    441 and m00 = 441, and its centroid m10/m00 = m01/m00 = -1/2 lies left of
    and above the picture; the claim gives it the colour 'unknown'.  The
    code samples the pixel int(-1/2) = 0 and answers 'red'. *)
Lemma C7_centroid_counterexample :
  ~ (@contourArea RefCv2.cv2 Examples.corner_square < 100)%Q /\
  ~ (m00 (@moments RefCv2.cv2 Examples.corner_square) == 0)%Q /\
  (m10 (@moments RefCv2.cv2 Examples.corner_square)
   / m00 (@moments RefCv2.cv2 Examples.corner_square) == - (1 # 2))%Q /\
  (m01 (@moments RefCv2.cv2 Examples.corner_square)
   / m00 (@moments RefCv2.cv2 Examples.corner_square) == - (1 # 2))%Q /\
  @imread RefCv2.cv2 "shapes.png" = Some RefCv2.picture /\
  @DetectedFigures.detect_shapes_and_colors RefCv2.cv2 "shapes.png"
    [Examples.corner_square] ["rectangle"] None
  = Ok [ (Examples.corner_square, "rectangle", "red") ] /\
  @DetectedFigures.detect_shapes_and_colors RefCv2.cv2 "shapes.png"
    [Examples.corner_square] ["rectangle"] None
  <> Ok [ (Examples.corner_square, "rectangle", "unknown") ].
Proof.
  repeat split; vm_compute; try reflexivity; discriminate.
Qed.

(** The segment between the square and the octagon goes to the others; the
    square and the octagon are placed as on their own. *)
Lemma C8_degenerate_contour_witness :
  @DetectShapes.classify_contours RefCv2.cv2
    (PyList [PyArray Examples.square100; PyArray Examples.segment;
             PyArray Examples.octagon]) 0.82
  = Ok ([Examples.octagon], [Examples.square100], [Examples.segment]).
Proof.
  refine (proj2 (proj1 (proj2 (@C8_degenerate_contour RefCv2.cv2 0.82
                                 Examples.segment _))
                   [PyArray Examples.square100] [PyArray Examples.octagon]
                   [] [Examples.square100] [] [Examples.octagon] [] [] _ _)).
  - right. vm_compute. discriminate.
  - vm_compute. reflexivity.
  - vm_compute. reflexivity.
Defined.

(** The square comes before the bar in the input, both are rectangles: the
    square comes before the bar in the rects. *)
Lemma C9_order_preserved_witness :
  precedes Examples.square100 Examples.bar [Examples.square100; Examples.bar].
Proof.
  refine (@C9_order_preserved RefCv2.cv2 0.82
            (PyList [PyArray Examples.square100; PyArray Examples.octagon;
                     PyArray Examples.bar])
            [PyArray Examples.square100; PyArray Examples.octagon;
             PyArray Examples.bar]
            [Examples.octagon] [Examples.square100; Examples.bar] []
            Rects Examples.square100 Examples.bar
            (or_introl eq_refl) _ _ _ _).
  - vm_compute. reflexivity.
  - exists [], [PyArray Examples.octagon], []. reflexivity.
  - vm_compute. reflexivity.
  - vm_compute. reflexivity.
Defined.

(** Three contours and one label: one pair is processed. *)
Lemma C10_unequal_lengths_witness :
  exists results,
    @DetectedFigures.detect_shapes_and_colors RefCv2.cv2 "shapes.png"
      [Examples.square100; Examples.bar; Examples.octagon] ["rectangle"] None
    = Ok results /\
    (List.length results <= 1)%nat.
Proof.
  exact (proj2 (proj2 (proj2
           (@C10_unequal_lengths RefCv2.cv2 "shapes.png"
              [Examples.square100; Examples.bar; Examples.octagon]
              ["rectangle"] None))) RefCv2.picture eq_refl).
Defined.

(* ===================================================================== *)
(** ** Further properties of the shape classifier *)
(* ===================================================================== *)

Section DetectMore.
Context `{Cv2}.
Import ShapeDetector.

Lemma aspect_in_integers (w h : Z) :
  (0 < h)%Z ->
  Qleb 0.95 (float w / float h) && Qleb (float w / float h) 1.05 = true
  <-> (19 * h <= 20 * w /\ 20 * w <= 21 * h)%Z.
Proof.
  intros P. destruct h as [ | p | p]; try lia.
  rewrite andb_true_iff, !Qleb_le.
  unfold float, inject_Z, Qdiv, Qinv, Qmult, Qle. cbn [Qnum Qden].
  rewrite !Pos.mul_1_l. lia.
Qed.

(** X1. On an array with at least one point [detect] returns one of its
    three labels, or raises [ZeroDivisionError]; it raises exactly when the
    simplified polygon has 4 vertices and the height of its bounding
    rectangle is 0.  (An array without points is another matter:
    [cv2.approxPolyDP] then returns [None] and line 25 raises [TypeError].) *)
Theorem X1_detect_outcomes (sd : ShapeDetector.t) (c approx : ndarray)
    (x y w h : Z) :
  c <> [] ->
  approx = approxPolyDP c (0.04 * arcLength c true)%Q true ->
  boundingRect approx = (x, y, w, h) ->
  (detect sd c = Raise ZeroDivisionError
   <-> List.length approx = 4%nat /\ h = 0%Z) /\
  (forall e, detect sd c = Raise e -> e = ZeroDivisionError) /\
  (forall s, detect sd c = Ok s ->
             s = square \/ s = rectangle \/ s = unknown_shape).
Proof.
  intros _ Happrox Hrect. unfold detect. rewrite <- Happrox, Hrect.
  destruct (Nat.eqb_spec (List.length approx) 4) as [L | L].
  - destruct (Z.eq_dec h 0) as [-> | N].
    + cbn. repeat split; try tauto; try discriminate.
      intros e E. now injection E as <-.
    + rewrite (float_div_ok _ (float_nonzero N)). cbn [bind].
      split; [ | split ].
      * split; [ discriminate | intros [_ Z]; contradiction ].
      * discriminate.
      * intros s E. injection E as <-.
        destruct (Qleb 0.95 (float w / float h) && Qleb (float w / float h) 1.05);
          auto.
  - split; [ | split ].
    + split; [ discriminate | intros [E _]; contradiction ].
    + discriminate.
    + intros s E. injection E as <-. auto.
Qed.

(** X2. With 4 vertices and a bounding rectangle of positive height h and
    width w, the verdict is decided by integers alone: square exactly when
    19 h <= 20 w <= 21 h, rectangle otherwise.  So equal sides always give a
    square. *)
Theorem X2_detect_integer_aspect (sd : ShapeDetector.t) (c approx : ndarray)
    (x y w h : Z) :
  approx = approxPolyDP c (0.04 * arcLength c true)%Q true ->
  boundingRect approx = (x, y, w, h) ->
  List.length approx = 4%nat ->
  (0 < h)%Z ->
  (detect sd c = Ok square <-> (19 * h <= 20 * w /\ 20 * w <= 21 * h)%Z) /\
  (detect sd c = Ok rectangle <-> ~ (19 * h <= 20 * w /\ 20 * w <= 21 * h)%Z) /\
  (w = h -> detect sd c = Ok square).
Proof.
  intros Happrox Hrect L P. unfold detect. rewrite <- Happrox, Hrect, L.
  cbn [Nat.eqb].
  assert (N : h <> 0%Z) by lia.
  rewrite (float_div_ok _ (float_nonzero N)). cbn [bind].
  pose proof (aspect_in_integers w P) as A.
  destruct (Qleb 0.95 (float w / float h) && Qleb (float w / float h) 1.05).
  - assert (I : (19 * h <= 20 * w /\ 20 * w <= 21 * h)%Z) by now apply A.
    repeat split; auto; try tauto. discriminate.
  - assert (I : ~ (19 * h <= 20 * w /\ 20 * w <= 21 * h)%Z).
    { intros I. apply A in I. discriminate I. }
    repeat split; auto; try tauto; try discriminate.
    intros ->. exfalso. apply I. lia.
Qed.

End DetectMore.

(* ===================================================================== *)
(** ** Further properties of the partitioner *)
(* ===================================================================== *)

Section PartitionMore.
Context `{Cv2}.
Import DetectShapes.

Lemma classify_loop_cons (thr : Q) (x : pyobj) (l : list pyobj) :
  classify_loop ShapeDetector.new thr (x :: l) empty
  = (dx <- classify_step ShapeDetector.new thr empty x ;;
     d <- classify_loop ShapeDetector.new thr l empty ;;
     Ok (merge dx d)).
Proof.
  cbn [classify_loop].
  destruct (classify_step ShapeDetector.new thr empty x) as [dx | e];
    cbn [bind]; [ apply classify_loop_merge | reflexivity ].
Qed.

Lemma classify_contours_loop (thr : Q) (contours : pyobj) (l : list pyobj)
    (b : Buckets) :
  contours = PyList l \/ contours = PyTuple l ->
  classify_contours contours thr = Ok b ->
  l <> [] /\ classify_loop ShapeDetector.new thr l empty = Ok b.
Proof.
  intros [-> | ->] Run; unfold classify_contours in Run;
    (destruct l; [ discriminate Run | split; [ discriminate | exact Run ] ]).
Qed.

Lemma classify_contours_nonempty (thr : Q) (l : list pyobj) :
  l <> [] ->
  classify_contours (PyList l) thr = classify_loop ShapeDetector.new thr l empty /\
  classify_contours (PyTuple l) thr = classify_loop ShapeDetector.new thr l empty.
Proof.
  intros N. destruct l; [ contradiction | split; reflexivity ].
Qed.

(** An iteration on an array puts it into exactly one bucket. *)
Lemma classify_step_single (thr : Q) (a : ndarray) (d : Buckets) :
  classify_step ShapeDetector.new thr empty (PyArray a) = Ok d ->
  exists which, d = single which a.
Proof.
  unfold empty. cbn [classify_step].
  destruct (Qleb (arcLength a true) 0 || Qleb (contourArea a) 0).
  { intros E. injection E as <-. now exists Others. }
  destruct (circularity (contourArea a) (arcLength a true)) as [circ | e];
    cbn [bind]; [ | discriminate ].
  destruct (Qltb thr circ).
  { intros E. injection E as <-. now exists Circles. }
  destruct (ShapeDetector.detect ShapeDetector.new a) as [shape | e];
    cbn [bind]; [ | discriminate ].
  rewrite fills_box_ok. cbn [bind].
  destruct (String.eqb shape ShapeDetector.rectangle
            || String.eqb shape ShapeDetector.square);
    [ destruct (Qltb 0 (contourArea (np_intp (boxPoints (minAreaRect a))))
                && Qltb 0.95 (contourArea a
                              / contourArea (np_intp (boxPoints (minAreaRect a))))) | ];
    intros E; injection E as <-;
    (now exists Rects) || (now exists Others).
Qed.

Lemma classify_step_other (thr : Q) (x : pyobj) :
  is_ndarray x = false ->
  classify_step ShapeDetector.new thr empty x = Ok empty.
Proof.
  destruct x; intros N; try discriminate N; reflexivity.
Qed.

Lemma single_injective (w w' : Bucket) (a : ndarray) :
  single w a = single w' a -> w = w'.
Proof.
  destruct w, w'; intros E; try reflexivity; discriminate E.
Qed.

Lemma In_select_single (w w' : Bucket) (a a' : ndarray) :
  In a' (select w' (single w a)) <-> w' = w /\ a' = a.
Proof.
  destruct w, w'; cbn; intuition (try discriminate; try congruence).
Qed.

Lemma arrays_In (a : ndarray) (l : list pyobj) :
  In a (arrays l) <-> In (PyArray a) l.
Proof.
  unfold arrays. rewrite in_flat_map. split.
  - intros (x & I & A). destruct x; cbn in A; try contradiction.
    destruct A as [-> | []]. exact I.
  - intros I. exists (PyArray a). split; [ exact I | now left ].
Qed.

(** What a successful batch returns: every array of the input is in the
    bucket its own iteration chooses, and the buckets hold nothing else. *)
Lemma classify_loop_buckets (thr : Q) (l : list pyobj) :
  forall b : Buckets,
    classify_loop ShapeDetector.new thr l empty = Ok b ->
    Permutation (select Circles b ++ select Rects b ++ select Others b) (arrays l) /\
    (forall w a, In a (select w b) <-> In (PyArray a) l /\ lands_in thr w a).
Proof.
  induction l as [ | x l IH]; intros b Run.
  - injection Run as <-. split; [ constructor | ].
    intros w a. destruct w; cbn; tauto.
  - rewrite classify_loop_cons in Run.
    apply bind_ok_inv in Run as (dx & Step & Run).
    apply bind_ok_inv in Run as (d & Loop & Run).
    injection Run as <-. destruct (IH d Loop) as [P M].
    destruct x;
      try (rewrite classify_step_other in Step by reflexivity;
           injection Step as <-; destruct d as [[c r] o];
           split; [ exact P | ];
           intros w a0; rewrite (M w a0); cbn [In]; split;
           [ intros [I L]; auto | intros [[E | I] L]; [ discriminate E | auto ] ]).
    destruct (classify_step_single _ _ Step) as [w0 ->].
    split.
    + cbn [arrays flat_map app]. fold (arrays l).
      rewrite !select_merge.
      destruct w0; cbn [select single app].
      * now constructor.
      * rewrite <- P. symmetry. apply Permutation_middle.
      * rewrite <- P, !app_assoc. symmetry. apply Permutation_middle.
    + intros w a0. rewrite select_merge, in_app_iff, In_select_single, (M w a0).
      cbn [In]. unfold lands_in at 2. split.
      * intros [[-> ->] | [I L]]; [ split; [ now left | exact Step ] | auto ].
      * intros [[E | I] L]; [ | auto ].
        injection E as ->. left. unfold lands_in in L.
        rewrite Step in L. injection L as L.
        split; [ symmetry; exact (single_injective _ _ _ L) | reflexivity ].
Qed.

Lemma classify_step_degenerate (sd : ShapeDetector.t) (thr : Q)
    (c r o : list ndarray) (a : ndarray) :
  (arcLength a true <= 0 \/ contourArea a <= 0)%Q ->
  classify_step sd thr (c, r, o) (PyArray a) = Ok (c, r, o ++ [a]).
Proof.
  intros Deg. cbn [classify_step].
  replace (Qleb (arcLength a true) 0 || Qleb (contourArea a) 0) with true;
    [ reflexivity | ].
  symmetry. apply orb_true_iff.
  destruct Deg as [D | D]; [ left | right ]; now apply Qleb_le.
Qed.

Lemma positive_or_degenerate (a : ndarray) :
  ((0 < contourArea a)%Q /\ (0 < arcLength a true)%Q)
  \/ (arcLength a true <= 0 \/ contourArea a <= 0)%Q.
Proof.
  destruct (Qlt_le_dec 0 (contourArea a)); destruct (Qlt_le_dec 0 (arcLength a true));
    auto.
Qed.

Lemma lands_in_circles (thr : Q) (a : ndarray) :
  lands_in thr Circles a
  <-> (0 < contourArea a)%Q /\ (0 < arcLength a true)%Q /\
      (thr < circularity_of (contourArea a) (arcLength a true))%Q.
Proof.
  unfold lands_in, empty.
  destruct (positive_or_degenerate a) as [[A P] | D].
  - rewrite (classify_step_regular _ thr [] [] [] a A P).
    destruct (Qltb thr (circularity_of (contourArea a) (arcLength a true))) eqn:L.
    + apply Qltb_lt in L. split; [ auto | reflexivity ].
    + apply Qltb_nlt in L. split; [ | tauto ].
      destruct (ShapeDetector.detect ShapeDetector.new a) as [shape | e];
        cbn [bind]; [ | discriminate ].
      rewrite fills_box_ok. cbn [bind].
      destruct (String.eqb shape ShapeDetector.rectangle
                || String.eqb shape ShapeDetector.square);
        [ destruct (Qltb 0 (contourArea (integer_box a))
                    && Qltb 0.95 (contourArea a / contourArea (integer_box a))) | ];
        discriminate.
  - rewrite (classify_step_degenerate _ thr [] [] [] a D). split.
    + discriminate.
    + intros (A & P & _). destruct D as [D | D]; lra.
Qed.




(** X3. The buckets partition the arrays of the input: the three returned
    lists together are a rearrangement of the arrays of the list (each array
    once for each of its occurrences, the other elements dropped), so their
    lengths add up to the number of arrays. *)
Theorem X3_buckets_partition_input (thr : Q) (contours : pyobj)
    (l : list pyobj) (c r o : list ndarray) :
  contours = PyList l \/ contours = PyTuple l ->
  classify_contours contours thr = Ok (c, r, o) ->
  Permutation (c ++ r ++ o) (arrays l) /\
  (List.length c + List.length r + List.length o
   = List.length (arrays l))%nat.
Proof.
  intros Seq Run. destruct (classify_contours_loop thr Seq Run) as [_ Loop].
  destruct (classify_loop_buckets _ _ Loop) as [P _]. cbn [select] in P.
  split; [ exact P | ].
  rewrite <- (Permutation_length P), !length_app. lia.
Qed.


Lemma lands_in_threshold (thr1 thr2 : Q) (w : Bucket) (a : ndarray) :
  (thr1 <= thr2)%Q -> w <> Circles ->
  lands_in thr1 w a -> lands_in thr2 w a.
Proof.
  intros T N. unfold lands_in, empty.
  destruct (positive_or_degenerate a) as [[A P] | D].
  - rewrite !(classify_step_regular _ _ [] [] [] a A P).
    destruct (Qltb thr1 (circularity_of (contourArea a) (arcLength a true))) eqn:L1.
    + intros E. injection E as E. exfalso. apply N.
      destruct w; [ reflexivity | discriminate E | discriminate E ].
    + apply Qltb_nlt in L1.
      replace (Qltb thr2 (circularity_of (contourArea a) (arcLength a true)))
        with false; [ auto | ].
      symmetry. apply Qltb_nlt. lra.
  - rewrite !(classify_step_degenerate _ _ [] [] [] a D). auto.
Qed.

(** X5. Raising the threshold only moves contours out of the circles: for
    thr1 <= thr2 and two successful runs on the same input, every circle at
    thr2 is a circle at thr1, and every rect or other at thr1 is a rect or
    other at thr2. *)
Theorem X5_threshold_monotone (thr1 thr2 : Q) (l : list pyobj)
    (c1 r1 o1 c2 r2 o2 : list ndarray) :
  (thr1 <= thr2)%Q ->
  classify_contours (PyList l) thr1 = Ok (c1, r1, o1) ->
  classify_contours (PyList l) thr2 = Ok (c2, r2, o2) ->
  incl c2 c1 /\ incl r1 r2 /\ incl o1 o2.
Proof.
  intros T Run1 Run2.
  destruct (classify_contours_loop thr1 (or_introl eq_refl) Run1) as [_ Loop1].
  destruct (classify_contours_loop thr2 (or_introl eq_refl) Run2) as [_ Loop2].
  destruct (classify_loop_buckets _ _ Loop1) as [_ M1].
  destruct (classify_loop_buckets _ _ Loop2) as [_ M2].
  split; [ | split ]; intros a I.
  - apply (M2 Circles a) in I as [I L]. apply (M1 Circles a).
    split; [ exact I | ].
    apply lands_in_circles in L as (A & P & L). apply lands_in_circles.
    repeat split; auto. lra.
  - apply (M1 Rects a) in I as [I L]. apply (M2 Rects a).
    split; [ exact I | ]. apply (lands_in_threshold T); [ discriminate | exact L ].
  - apply (M1 Others a) in I as [I L]. apply (M2 Others a).
    split; [ exact I | ]. apply (lands_in_threshold T); [ discriminate | exact L ].
Qed.

(** X6. A batch can be cut anywhere: the result on [l1 ++ l2] is the result
    on [l1] followed, bucket by bucket, by the result on [l2]; if one of the
    parts raises, the whole batch raises the first of these exceptions. *)
Theorem X6_batch_composition (thr : Q) (l1 l2 : list pyobj) :
  l1 <> [] -> l2 <> [] ->
  classify_contours (PyList (l1 ++ l2)) thr
  = (b1 <- classify_contours (PyList l1) thr ;;
     b2 <- classify_contours (PyList l2) thr ;;
     Ok (merge b1 b2)).
Proof.
  intros N1 N2.
  assert (N : l1 ++ l2 <> []).
  { intros E. apply app_eq_nil in E as [E _]. contradiction. }
  destruct (classify_contours_nonempty thr N) as [-> _].
  destruct (classify_contours_nonempty thr N1) as [-> _].
  destruct (classify_contours_nonempty thr N2) as [-> _].
  rewrite classify_loop_app.
  destruct (classify_loop ShapeDetector.new thr l1 empty) as [b1 | e];
    cbn [bind]; [ apply classify_loop_merge | reflexivity ].
Qed.

Lemma classify_step_defined (thr : Q) (a : ndarray) :
  height_defined a ->
  exists d, classify_step ShapeDetector.new thr empty (PyArray a) = Ok d.
Proof.
  intros Hd. unfold empty.
  destruct (positive_or_degenerate a) as [[A P] | D].
  - rewrite (classify_step_regular _ thr [] [] [] a A P).
    destruct (Qltb thr (circularity_of (contourArea a) (arcLength a true)));
      [ eauto | ].
    assert (Det : exists shape, ShapeDetector.detect ShapeDetector.new a = Ok shape).
    { unfold ShapeDetector.detect. unfold height_defined in Hd.
      destruct (Nat.eqb_spec
                  (List.length (approxPolyDP a (0.04 * arcLength a true)%Q true)) 4)
        as [L | L]; [ | eauto ].
      specialize (Hd L).
      destruct (boundingRect (approxPolyDP a (0.04 * arcLength a true)%Q true))
        as [[[x y] w] h].
      cbn [snd] in Hd. rewrite (float_div_ok _ (float_nonzero Hd)). cbn [bind].
      eauto. }
    destruct Det as [shape ->]. cbn [bind]. rewrite fills_box_ok. cbn [bind].
    destruct (String.eqb shape ShapeDetector.rectangle
              || String.eqb shape ShapeDetector.square);
      [ destruct (Qltb 0 (contourArea (integer_box a))
                  && Qltb 0.95 (contourArea a / contourArea (integer_box a))) | ];
      eauto.
  - rewrite (classify_step_degenerate _ thr [] [] [] a D). eauto.
Qed.

(** X7. The only exception of the loop is the division of [detect]: on a
    non-empty list or tuple [classify_contours] raises nothing but
    [ZeroDivisionError], and it returns three buckets whenever no array of
    the input has a 4-vertex polygon with a bounding rectangle of height 0. *)
Theorem X7_partition_exceptions (thr : Q) (contours : pyobj) (l : list pyobj) :
  contours = PyList l \/ contours = PyTuple l ->
  l <> [] ->
  (forall e, classify_contours contours thr = Raise e -> e = ZeroDivisionError) /\
  (Forall height_defined (arrays l) ->
   exists c r o, classify_contours contours thr = Ok (c, r, o)).
Proof.
  intros Seq N.
  assert (E : classify_contours contours thr
              = classify_loop ShapeDetector.new thr l empty).
  { destruct (classify_contours_nonempty thr N) as [E1 E2].
    destruct Seq as [-> | ->]; assumption. }
  rewrite E. clear E Seq N. split.
  - induction l as [ | x l IH]; intros e; [ discriminate | ].
    rewrite classify_loop_cons.
    destruct (classify_step ShapeDetector.new thr empty x) as [dx | e0] eqn:Step;
      cbn [bind].
    + destruct (classify_loop ShapeDetector.new thr l empty) as [d | e1];
        cbn [bind]; [ discriminate | ].
      intros R. injection R as <-. now apply IH.
    + intros R. injection R as <-.
      destruct x; try discriminate Step.
      unfold empty in Step. cbn [classify_step] in Step.
      destruct (Qleb (arcLength a true) 0 || Qleb (contourArea a) 0);
        [ discriminate Step | ].
      unfold circularity, float_div64 in Step.
      destruct (Qeqb (float_pow64 (arcLength a true) 2) 0); cbn [bind] in Step.
      * now injection Step as <-.
      * destruct (Qltb thr _); [ discriminate Step | ].
        unfold ShapeDetector.detect in Step.
        destruct (List.length (approxPolyDP a (0.04 * arcLength a true)%Q true) =? 4)%nat.
        -- destruct (boundingRect (approxPolyDP a (0.04 * arcLength a true)%Q true))
             as [[[x y] w] h].
           unfold float_div in Step.
           destruct (Qeqb (float h) 0); cbn [bind] in Step.
           ++ now injection Step as <-.
           ++ rewrite fills_box_ok in Step. cbn [bind] in Step.
              destruct (String.eqb _ _ || String.eqb _ _);
                [ destruct (_ && _) | ]; discriminate Step.
        -- cbn [bind] in Step. rewrite fills_box_ok in Step. cbn [bind] in Step.
           destruct (String.eqb _ _ || String.eqb _ _);
             [ destruct (_ && _) | ]; discriminate Step.
  - intros F.
    assert (Run : exists b, classify_loop ShapeDetector.new thr l empty = Ok b).
    { induction l as [ | x l IH]; [ now exists empty | ].
      rewrite classify_loop_cons.
      assert (Step : exists dx, classify_step ShapeDetector.new thr empty x = Ok dx).
      { destruct x; try (now exists empty).
        apply classify_step_defined. cbn in F. now inversion F. }
      destruct Step as [dx ->]. cbn [bind].
      destruct IH as [d ->].
      - destruct x; cbn in F; try exact F. now inversion F.
      - cbn [bind]. eauto. }
    destruct Run as [[[c r] o] ->]. eauto.
Qed.

(** X8. The result is stable: classifying a returned bucket again (as a list
    of its own) gives the same bucket and nothing in the two others. *)
Theorem X8_bucket_stable (thr : Q) (contours : pyobj) (l : list pyobj)
    (c r o : list ndarray) (which : Bucket) :
  contours = PyList l \/ contours = PyTuple l ->
  classify_contours contours thr = Ok (c, r, o) ->
  select which (c, r, o) <> [] ->
  classify_contours (PyList (map PyArray (select which (c, r, o)))) thr
  = Ok (only which (select which (c, r, o))).
Proof.
  intros Seq Run N. destruct (classify_contours_loop thr Seq Run) as [_ Loop].
  destruct (classify_loop_buckets _ _ Loop) as [_ M].
  assert (L : Forall (lands_in thr which) (select which (c, r, o))).
  { apply Forall_forall. intros a I. now apply (M which a). }
  assert (N' : map PyArray (select which (c, r, o)) <> []).
  { intros E. apply map_eq_nil in E. contradiction. }
  destruct (classify_contours_nonempty thr N') as [-> _].
  clear - L. induction L as [ | a xs La L IH].
  - destruct which; reflexivity.
  - cbn [map]. rewrite classify_loop_cons. unfold lands_in in La.
    rewrite La, IH. cbn [bind]. destruct which; reflexivity.
Qed.

End PartitionMore.

(* ===================================================================== *)
(** ** Further properties of the colour classifier *)
(* ===================================================================== *)

Section ColorMore.
Import DetectedFigures.

Lemma first_match_cases (pixel : Pixel) (table : ColorRanges) :
  (first_match pixel table = "unknown" /\
   Forall (fun entry => entry_matches pixel (snd entry) = false) table)
  \/ (exists r, In (first_match pixel table, r) table /\
                entry_matches pixel r = true).
Proof.
  unfold first_match.
  destruct (find (fun entry => entry_matches pixel (snd entry)) table)
    as [[name r] | ] eqn:F.
  - right. apply find_some in F as [I M]. exists r. split; assumption.
  - left. split; [ reflexivity | ]. apply Forall_forall. intros entry I.
    exact (find_none _ _ F entry I).
Qed.

(** X9. The classifier always answers, and its answer is either the name of
    an entry of the table that holds the sampled pixel, or 'unknown' because
    the point is outside the image or no entry holds the pixel.  It never
    raises [IndexError]: the pixel is read only inside the image. *)
Theorem X9_color_answer (hsv : Image) (x y : Z) (table : ColorRanges) :
  exists name,
    get_color_at_point hsv x y table = Ok name /\
    ((name = "unknown" /\
      (out_of_bounds hsv x y \/
       Forall (fun entry => entry_matches (pixels hsv y x) (snd entry) = false) table))
     \/ (~ out_of_bounds hsv x y /\
         exists r, In (name, r) table /\ entry_matches (pixels hsv y x) r = true)).
Proof.
  exists (color_at hsv x y table). split; [ apply get_color_at_point_total | ].
  unfold color_at. destruct (out_of_boundsb hsv x y) eqn:B.
  - apply out_of_boundsb_true in B. left. auto.
  - apply out_of_boundsb_false in B.
    destruct (first_match_cases (pixels hsv y x) table) as [[U N] | M]; auto.
Qed.

(** X10. The two forms of a table entry agree: a list with one interval
    behaves as that interval alone, a list [l1 ++ l2] behaves as two
    consecutive entries of the same name with the lists [l1] and [l2], and
    an entry with an empty list behaves as no entry. *)
Theorem X10_interval_lists (pixel : Pixel) (name : string) (rest : ColorRanges) :
  (forall lower upper,
     scan_items pixel ((name, RangeList [(lower, upper)]) :: rest)
     = scan_items pixel ((name, RangePair lower upper) :: rest)) /\
  (forall l1 l2,
     scan_items pixel ((name, RangeList (l1 ++ l2)) :: rest)
     = scan_items pixel ((name, RangeList l1) :: (name, RangeList l2) :: rest)) /\
  scan_items pixel ((name, RangeList []) :: rest) = scan_items pixel rest.
Proof.
  split; [ | split ].
  - intros lower upper. rewrite !scan_items_cons. cbn [entry_matches existsb fst snd].
    now rewrite orb_false_r.
  - intros l1 l2. rewrite !scan_items_cons. cbn [entry_matches].
    rewrite existsb_app.
    destruct (existsb (fun lu => withinb pixel (fst lu) (snd lu)) l1); reflexivity.
  - now rewrite scan_items_cons.
Qed.

(** X11. The default table by hue.  A pixel whose saturation or value is
    outside 50..255 is 'unknown'.  Otherwise the hue decides: 0..10 and
    160..180 red, 20..34 yellow, 35..85 green (35 is also in the range of
    yellow, green comes first), 100..130 blue, and every other hue
    'unknown'. *)
Theorem X11_default_table_bands (h s v : Z) :
  scan_items (h, s, v) default_color_hsv_ranges
  = if ((50 <=? s) && (s <=? 255) && (50 <=? v) && (v <=? 255))%Z
    then default_band h else "unknown".
Proof.
  unfold default_color_hsv_ranges, default_band.
  rewrite !scan_items_cons. cbn [scan_items entry_matches existsb withinb fst snd].
  repeat match goal with
         | |- context [Z.leb ?a ?b] =>
             destruct (Z.leb_spec a b); cbn [andb orb];
             try reflexivity; try (exfalso; lia)
         end.
Qed.

End ColorMore.

(* ===================================================================== *)
(** ** Further properties of the object labeler *)
(* ===================================================================== *)

Section LabelMore.
Context `{Cv2}.
Import DetectedFigures.

Lemma labelled_kept (image : Image) (table : ColorRanges) (item : ndarray * string) :
  labelled image table item
  = if kept item
    then [(fst item, snd item,
           color_at (cvtColor_BGR2HSV image)
                    (fst (centroid_pixel (fst item)))
                    (snd (centroid_pixel (fst item))) table)]
    else [].
Proof.
  unfold labelled, kept.
  now destruct (Qltb (contourArea (fst item)) 100
                || Qeqb (m00 (moments (fst item))) 0).
Qed.

Lemma int_outside (q : Q) (w : Z) :
  (0 < w)%Z ->
  (int q < 0 \/ int q >= w)%Z <-> (q <= -1 \/ inject_Z w <= q)%Q.
Proof.
  intros P. destruct q as [n d]. unfold int, Qle, inject_Z. cbn [Qnum Qden].
  Z.to_euclidean_division_equations. nia.
Qed.

Lemma combine_app_same {A B : Type} (l1 l2 : list A) (k1 k2 : list B) :
  List.length l1 = List.length k1 ->
  combine (l1 ++ l2) (k1 ++ k2) = combine l1 k1 ++ combine l2 k2.
Proof.
  revert k1. induction l1 as [ | a l1 IH]; intros [ | b k1] L;
    cbn [List.length app combine] in *; try discriminate L; [ reflexivity | ].
  f_equal. apply IH. now injection L.
Qed.

(** X12. [FileNotFoundError] is raised exactly when the image does not load
    (line 24), whatever the lists are.  The computation of the records never
    raises [ZeroDivisionError] (the centroid is divided by m00 only when
    m00 is not 0) and never raises [IndexError] (the pixel is read only
    inside the image). *)
Theorem X12_labeler_exceptions (image_path : string)
    (contours_list : list ndarray) (shape_labels : list string)
    (color_hsv_ranges : option ColorRanges) :
  (imread image_path = None <->
   exists msg,
     detect_shapes_and_colors image_path contours_list shape_labels color_hsv_ranges
     = Raise (FileNotFoundError msg)) /\
  detect_shapes_and_colors image_path contours_list shape_labels color_hsv_ranges
  <> Raise ZeroDivisionError /\
  detect_shapes_and_colors image_path contours_list shape_labels color_hsv_ranges
  <> Raise IndexError.
Proof.
  destruct (imread image_path) as [image | ] eqn:Load.
  - rewrite (detect_shapes_and_colors_labelled _ _ _ _ Load).
    split; [ split | split ]; try discriminate.
    intros [msg E]. discriminate E.
  - unfold detect_shapes_and_colors. rewrite Load.
    split; [ split | split ]; try discriminate.
    + intros _. eexists. reflexivity.
    + reflexivity.
Qed.

(** X13. The records follow the pairs: the (contour, label) parts of the
    returned records are exactly the pairs of [zip(contours_list,
    shape_labels)] whose contour has an area of at least 100 and a moment
    m00 other than 0, in the same order; a contour keeps the label it was
    paired with. *)
Theorem X13_labeler_pairs_kept (image_path : string) (image : Image)
    (contours_list : list ndarray) (shape_labels : list string)
    (color_hsv_ranges : option ColorRanges) :
  imread image_path = Some image ->
  exists results,
    detect_shapes_and_colors image_path contours_list shape_labels color_hsv_ranges
    = Ok results /\
    map (fun record : Labelled => (fst (fst record), snd (fst record))) results
    = filter kept (combine contours_list shape_labels) /\
    (forall item, kept item = true <->
       ~ (contourArea (fst item) < 100)%Q /\ ~ (m00 (moments (fst item)) == 0)%Q).
Proof.
  intros Load. eexists.
  split; [ apply detect_shapes_and_colors_labelled; exact Load | ].
  split.
  - induction (combine contours_list shape_labels) as [ | item pairs IH];
      [ reflexivity | ].
    cbn [flat_map filter]. rewrite map_app, IH, labelled_kept.
    destruct item as [contour label]. destruct (kept (contour, label)); reflexivity.
  - intros item. unfold kept.
    rewrite negb_true_iff, orb_false_iff, Qltb_nlt, Qeqb_neq. reflexivity.
Qed.

(** X14. The labeler works pair by pair: on two concatenated batches (the
    first with as many labels as contours) it returns the records of the
    first batch followed by the records of the second. *)
Theorem X14_labeler_concatenation (image_path : string)
    (contours1 contours2 : list ndarray) (labels1 labels2 : list string)
    (color_hsv_ranges : option ColorRanges) :
  List.length contours1 = List.length labels1 ->
  detect_shapes_and_colors image_path (contours1 ++ contours2)
    (labels1 ++ labels2) color_hsv_ranges
  = (r1 <- detect_shapes_and_colors image_path contours1 labels1 color_hsv_ranges ;;
     r2 <- detect_shapes_and_colors image_path contours2 labels2 color_hsv_ranges ;;
     Ok (r1 ++ r2)).
Proof.
  intros L. destruct (imread image_path) as [image | ] eqn:Load.
  - rewrite !(detect_shapes_and_colors_labelled _ _ _ _ Load). cbn [bind].
    rewrite (@combine_app_same _ _ contours1 contours2 labels1 labels2 L).
    now rewrite flat_map_app.
  - unfold detect_shapes_and_colors. rewrite Load. reflexivity.
Qed.

(** X15. Which centroids are sampled, for a non-empty image and a kept pair.
    With qx = m10/m00 and qy = m01/m00, the colour is 'unknown' for want of a
    pixel exactly when qx <= -1, qy <= -1, qx >= width or qy >= height.  In
    every other case, also for a centroid between -1 and 0, the pixel
    (int(qx), int(qy)) is inside the image and the colour is the first match
    of its HSV value. *)
Theorem X15_labeler_centroid_bounds (image_path : string) (image : Image)
    (contour : ndarray) (label : string) (color_hsv_ranges : option ColorRanges)
    (qx qy : Q) :
  imread image_path = Some image ->
  (0 < shape0 image)%Z -> (0 < shape1 image)%Z ->
  ~ (contourArea contour < 100)%Q ->
  ~ (m00 (moments contour) == 0)%Q ->
  qx = (m10 (moments contour) / m00 (moments contour))%Q ->
  qy = (m01 (moments contour) / m00 (moments contour))%Q ->
  ((qx <= -1 \/ qy <= -1 \/
    inject_Z (shape1 image) <= qx \/ inject_Z (shape0 image) <= qy)%Q ->
   detect_shapes_and_colors image_path [contour] [label] color_hsv_ranges
   = Ok [(contour, label, "unknown")]) /\
  (~ (qx <= -1 \/ qy <= -1 \/
      inject_Z (shape1 image) <= qx \/ inject_Z (shape0 image) <= qy)%Q ->
   (0 <= int qx < shape1 image)%Z /\ (0 <= int qy < shape0 image)%Z /\
   detect_shapes_and_colors image_path [contour] [label] color_hsv_ranges
   = Ok [(contour, label,
          first_match (BGR2HSV (pixels image (int qy) (int qx)))
                      (table_of color_hsv_ranges))]).
Proof.
  intros Load H0 H1 A M -> ->.
  rewrite (detect_shapes_and_colors_labelled _ _ _ _ Load).
  cbn [combine flat_map]. rewrite app_nil_r, labelled_kept.
  assert (K : kept (contour, label) = true).
  { unfold kept. cbn [fst]. apply Qltb_nlt in A. apply Qeqb_neq in M.
    now rewrite A, M. }
  rewrite K. cbn [fst snd]. unfold centroid_pixel, color_at. cbn [fst snd].
  rewrite cvtColor_out_of_boundsb.
  pose proof (int_outside (m10 (moments contour) / m00 (moments contour)) H1) as Bx.
  pose proof (int_outside (m01 (moments contour) / m00 (moments contour)) H0) as By.
  split.
  - intros Out.
    replace (out_of_boundsb image _ _) with true; [ reflexivity | ].
    symmetry. apply out_of_boundsb_true. unfold out_of_bounds.
    destruct Out as [O | [O | [O | O]]].
    + assert (I : (int (m10 (moments contour) / m00 (moments contour)) < 0
                   \/ int (m10 (moments contour) / m00 (moments contour))
                      >= shape1 image)%Z) by (apply Bx; auto).
      lia.
    + assert (I : (int (m01 (moments contour) / m00 (moments contour)) < 0
                   \/ int (m01 (moments contour) / m00 (moments contour))
                      >= shape0 image)%Z) by (apply By; auto).
      lia.
    + assert (I : (int (m10 (moments contour) / m00 (moments contour)) < 0
                   \/ int (m10 (moments contour) / m00 (moments contour))
                      >= shape1 image)%Z) by (apply Bx; auto).
      lia.
    + assert (I : (int (m01 (moments contour) / m00 (moments contour)) < 0
                   \/ int (m01 (moments contour) / m00 (moments contour))
                      >= shape0 image)%Z) by (apply By; auto).
      lia.
  - intros In.
    assert (Ix : ~ (int (m10 (moments contour) / m00 (moments contour)) < 0
                    \/ int (m10 (moments contour) / m00 (moments contour))
                       >= shape1 image)%Z).
    { intros I. apply Bx in I. tauto. }
    assert (Iy : ~ (int (m01 (moments contour) / m00 (moments contour)) < 0
                    \/ int (m01 (moments contour) / m00 (moments contour))
                       >= shape0 image)%Z).
    { intros I. apply By in I. tauto. }
    split; [ lia | split; [ lia | ] ].
    replace (out_of_boundsb image _ _) with false; [ reflexivity | ].
    symmetry. apply out_of_boundsb_false. unfold out_of_bounds. lia.
Qed.

(** X16. Every colour the labeler reports is 'unknown' or the name of an
    entry of the table in use. *)
Theorem X16_labeler_colors_from_table (image_path : string)
    (contours_list : list ndarray) (shape_labels : list string)
    (color_hsv_ranges : option ColorRanges) (results : list Labelled) :
  detect_shapes_and_colors image_path contours_list shape_labels color_hsv_ranges
  = Ok results ->
  forall contour label color,
    In (contour, label, color) results ->
    In (contour, label) (combine contours_list shape_labels) /\
    (color = "unknown" \/ exists r, In (color, r) (table_of color_hsv_ranges)).
Proof.
  intros Run contour label color I.
  destruct (imread image_path) as [image | ] eqn:Load.
  - rewrite (detect_shapes_and_colors_labelled _ _ _ _ Load) in Run.
    injection Run as <-. apply in_flat_map in I as (item & Iz & Il).
    rewrite labelled_kept in Il. destruct (kept item); [ | contradiction ].
    destruct Il as [E | []]. injection E as <- <- <-.
    split; [ now destruct item | ].
    unfold color_at. destruct (out_of_boundsb _ _ _); [ now left | ].
    destruct (first_match_cases
                (pixels (cvtColor_BGR2HSV image)
                        (snd (centroid_pixel (fst item)))
                        (fst (centroid_pixel (fst item))))
                (table_of color_hsv_ranges)) as [[U _] | [r [Ir _]]];
      [ now left | right; now exists r ].
  - unfold detect_shapes_and_colors in Run. rewrite Load in Run. discriminate Run.
Qed.

End LabelMore.

(* ===================================================================== *)
(** ** Drawing, loading and the pipeline of [main] *)
(* ===================================================================== *)

Section PipelineFacts.
Context `{Cv2} `{Env}.
Import DetectShapesIO DetectedFiguresMain.

Lemma combine_repeat {A B : Type} (l : list A) (b : B) :
  combine l (repeat b (List.length l)) = map (fun a => (a, b)) l.
Proof.
  induction l as [ | a l IH]; [ reflexivity | ].
  cbn [List.length repeat combine map]. now rewrite IH.
Qed.

Lemma draw_loop_app (output_img : Image) (a b : list ndarray)
    (color : Pixel) (thickness : Z) :
  draw_loop output_img (a ++ b) color thickness
  = (drawn <- draw_loop output_img a color thickness ;;
     draw_loop drawn b color thickness).
Proof.
  revert output_img. induction a as [ | cnt a IH]; intros output_img;
    [ reflexivity | ].
  cbn [app draw_loop].
  destruct (drawContours output_img [cnt] (-1) color thickness) as [drawn | e];
    cbn [bind]; [ apply IH | reflexivity ].
Qed.

Lemma process_image_inv (image_path : option string)
    (canny1 canny2 thresh_min thresh_max area_min area_max : Z)
    (image : pyimage) (contours : list pyobj) :
  process_image image_path canny1 canny2 thresh_min thresh_max area_min area_max
  = Ok (image, contours) ->
  contours <> [] /\
  load image_path canny1 canny2 thresh_min thresh_max area_min area_max
  = Ok (image, contours).
Proof.
  unfold process_image.
  destruct (load image_path canny1 canny2 thresh_min thresh_max area_min area_max)
    as [[img cs] | e]; cbn [bind snd]; [ | discriminate ].
  destruct cs as [ | x cs]; [ discriminate | ].
  intros E. injection E as <- <-. split; [ discriminate | reflexivity ].
Qed.

Lemma load_truthy (image_path : option string)
    (canny1 canny2 thresh_min thresh_max area_min area_max : Z)
    (image : pyimage) (contours : list pyobj) :
  truthy image_path = true ->
  load image_path canny1 canny2 thresh_min thresh_max area_min area_max
  = Ok (image, contours) ->
  exists path img,
    image_path = Some path /\ path_exists path = true /\
    imread path = Some img /\ image = ImColor img /\
    contours = counting_contours (cvtColor_BGR2GRAY img) canny1 canny2
                 thresh_min thresh_max area_min area_max.
Proof.
  intros T. unfold load. destruct image_path as [path | ]; [ | discriminate T ].
  rewrite T. destruct (path_exists path) eqn:X; cbn [negb]; [ | discriminate ].
  destruct (imread path) as [img | ] eqn:R; [ | discriminate ].
  intros E. injection E as <- <-. exists path, img. auto.
Qed.

(** X17. In [main] the list of contours and the list of labels are parallel:
    they have the same length, and [zip] pairs every circle with 'circle',
    every rect with 'rectangle' and every other contour with 'other'; no
    contour is left without a label. *)
Theorem X17_main_labels_parallel (circles rects others : list ndarray) :
  List.length (all_contours (circles, rects, others))
  = List.length (shape_labels (circles, rects, others)) /\
  combine (all_contours (circles, rects, others))
          (shape_labels (circles, rects, others))
  = map (fun cnt => (cnt, "circle")) circles
    ++ map (fun cnt => (cnt, "rectangle")) rects
    ++ map (fun cnt => (cnt, "other")) others.
Proof.
  unfold all_contours, shape_labels. split.
  - now rewrite !length_app, !repeat_length.
  - rewrite combine_app_same by now rewrite repeat_length.
    rewrite combine_app_same by now rewrite repeat_length.
    now rewrite !combine_repeat.
Qed.

(** X18. What [process_image] returns.  The list of contours is never empty,
    so the validation of [classify_contours] accepts it and the
    classification starts.  With a path the returned image is the colour
    image read from an existing file; without one (or with the empty string)
    it is the grey coins picture. *)
Theorem X18_process_image_result (image_path : option string)
    (canny1 canny2 thresh_min thresh_max area_min area_max : Z)
    (image : pyimage) (contours : list pyobj) :
  process_image image_path canny1 canny2 thresh_min thresh_max area_min area_max
  = Ok (image, contours) ->
  contours <> [] /\
  (forall thr,
     DetectShapes.classify_contours (PyList contours) thr
     = DetectShapes.classify_loop ShapeDetector.new thr contours empty) /\
  (truthy image_path = true ->
   exists path img,
     image_path = Some path /\ path_exists path = true /\
     imread path = Some img /\ image = ImColor img) /\
  (truthy image_path = false -> image = ImGray data_coins).
Proof.
  intros Run. apply process_image_inv in Run as [N L].
  split; [ exact N | split; [ | split ] ].
  - intros thr. destruct contours; [ contradiction | reflexivity ].
  - intros T. destruct (load_truthy _ _ _ _ _ _ _ T L)
      as (path & img & E & X & R & I & _).
    exists path, img. auto.
  - intros T. unfold load in L. destruct image_path as [path | ].
    + rewrite T in L. now injection L as <- _.
    + now injection L as <- _.
Qed.

(** X19. Without a usable path the parameters have no effect: when
    [image_path] is [None] or the empty string, [process_image] works on the
    coins picture with fixed parameters, whatever canny1, canny2, thresh_min,
    thresh_max, area_min and area_max are, and the file system is not
    consulted. *)
Theorem X19_process_image_falsy_path (image_path : option string)
    (canny1 canny2 thresh_min thresh_max area_min area_max : Z) :
  truthy image_path = false ->
  process_image image_path canny1 canny2 thresh_min thresh_max area_min area_max
  = match counting_contours (GaussianBlur (equalizeHist data_coins) (7, 7)%Z 0)
                            50 150 127 255 200 5000 with
    | [] => Raise (ValueError "No contours detected in image.")
    | contours => Ok (ImGray data_coins, contours)
    end.
Proof.
  intros T. unfold process_image, load.
  destruct image_path as [path | ]; [ rewrite T | ]; cbn [bind];
    unfold load_coins; cbn [snd];
    destruct (counting_contours _ _ _ _ _ _ _); reflexivity.
Qed.

(** X20. The exceptions of [process_image]: [FileNotFoundError] exactly when
    a path is given and no such file exists (the file is then not read), and
    otherwise only [ValueError], for a file that is no image or for an empty
    list of contours. *)
Theorem X20_process_image_exceptions (image_path : option string)
    (canny1 canny2 thresh_min thresh_max area_min area_max : Z) :
  ((exists msg,
      process_image image_path canny1 canny2 thresh_min thresh_max area_min area_max
      = Raise (FileNotFoundError msg))
   <-> exists path, image_path = Some path /\ path <> "" /\
                    path_exists path = false) /\
  (forall e,
     process_image image_path canny1 canny2 thresh_min thresh_max area_min area_max
     = Raise e ->
     (exists msg, e = FileNotFoundError msg) \/ (exists msg, e = ValueError msg)) /\
  (forall path,
     image_path = Some path -> path <> "" -> path_exists path = true ->
     imread path = None ->
     exists msg,
       process_image image_path canny1 canny2 thresh_min thresh_max area_min area_max
       = Raise (ValueError msg)).
Proof.
  unfold process_image, load, truthy.
  destruct image_path as [path | ].
  - destruct (String.eqb_spec path "") as [-> | N]; cbn [negb].
    + cbn [bind]. unfold load_coins. cbn [snd].
      split; [ split | split ].
      * destruct (counting_contours _ _ _ _ _ _ _); intros [msg E]; discriminate E.
      * intros (p & E & Np & _). injection E as <-. contradiction.
      * intros e. destruct (counting_contours _ _ _ _ _ _ _); intros E;
          [ injection E as <-; right; eexists; reflexivity | discriminate E ].
      * intros p E Np. injection E as <-. contradiction.
    + destruct (path_exists path) eqn:X; cbn [negb bind].
      * destruct (imread path) as [img | ] eqn:R; cbn [bind snd].
        -- split; [ split | split ].
           ++ destruct (counting_contours _ _ _ _ _ _ _); intros [msg E];
                discriminate E.
           ++ intros (p & E & _ & Xp). injection E as <-. congruence.
           ++ intros e. destruct (counting_contours _ _ _ _ _ _ _); intros E;
                [ injection E as <-; right; eexists; reflexivity | discriminate E ].
           ++ intros p E _ _ Rp. injection E as <-. congruence.
        -- split; [ split | split ].
           ++ intros [msg E]. discriminate E.
           ++ intros (p & E & _ & Xp). injection E as <-. congruence.
           ++ intros e E. injection E as <-. right. eexists. reflexivity.
           ++ intros p _ _ _ _. eexists. reflexivity.
      * split; [ split | split ].
        -- intros _. exists path. auto.
        -- intros _. eexists. reflexivity.
        -- intros e E. injection E as <-. left. eexists. reflexivity.
        -- intros p E _ Xp. injection E as <-. congruence.
  - cbn [bind]. unfold load_coins. cbn [snd]. split; [ split | split ].
    + destruct (counting_contours _ _ _ _ _ _ _); intros [msg E]; discriminate E.
    + intros (p & E & _). discriminate E.
    + intros e. destruct (counting_contours _ _ _ _ _ _ _); intros E;
        [ injection E as <-; right; eexists; reflexivity | discriminate E ].
    + intros p E. discriminate E.
Qed.

Lemma length_labelled_kept (image : Image)
    (table : DetectedFigures.ColorRanges) (pairs : list (ndarray * string)) :
  List.length (flat_map (labelled image table) pairs)
  = List.length (filter kept pairs).
Proof.
  induction pairs as [ | item pairs IH]; [ reflexivity | ].
  cbn [flat_map filter]. rewrite length_app, IH, labelled_kept.
  destruct (kept item); reflexivity.
Qed.

(** X21. The pipeline of [main] in detected_figures.py.  Without a usable
    path it returns 0.  With a path, once the image is processed and the
    contours are classified at the float 0.82, the labeler is called on the
    contours of the three buckets with their labels; it cannot fail on the
    image (the file was read before), and [main] returns the number of
    records it returns.  That number is the number of contours with an area
    of at least 100 and m00 other than 0, at most the number of arrays the
    contour finder returned. *)
Theorem X21_main_pipeline (image_path : option string) :
  (truthy image_path = false -> main image_path = 0%Z) /\
  (forall image contours b,
     truthy image_path = true ->
     process_image_default image_path = Ok (image, contours) ->
     DetectShapes.classify_contours (PyList contours) (binary64 0.82) = Ok b ->
     exists path results,
       image_path = Some path /\
       DetectedFigures.detect_shapes_and_colors path
         (all_contours b) (shape_labels b) None = Ok results /\
       main_try image_path = Ok (Z.of_nat (List.length results)) /\
       main image_path = Z.of_nat (List.length results) /\
       List.length results
       = List.length (filter kept (combine (all_contours b) (shape_labels b))) /\
       (List.length results <= List.length (arrays contours))%nat).
Proof.
  split.
  - intros T. unfold main, main_try.
    destruct (process_image_default image_path) as [loaded | e]; cbn [bind];
      [ | reflexivity ].
    destruct (DetectShapes.classify_contours (PyList (snd loaded)) (binary64 0.82))
      as [b | e]; cbn [bind]; [ | reflexivity ].
    destruct image_path as [path | ]; [ now rewrite T | reflexivity ].
  - intros image contours b T Run Class. unfold main, main_try.
    rewrite Run. cbn [bind snd]. rewrite Class. cbn [bind].
    apply process_image_inv in Run as [N L].
    destruct (load_truthy _ _ _ _ _ _ _ T L) as (path & img & -> & _ & R & _ & _).
    rewrite T.
    rewrite (detect_shapes_and_colors_labelled _ _ _ _ R). cbn [bind].
    exists path,
      (flat_map (labelled img (table_of None))
                (combine (all_contours b) (shape_labels b))).
    split; [ reflexivity | ].
    split; [ apply detect_shapes_and_colors_labelled; exact R | ].
    split; [ reflexivity | ]. split; [ reflexivity | ].
    split; [ apply length_labelled_kept | ].
    etransitivity; [ apply length_labelled | ].
    rewrite length_combine. etransitivity; [ apply Nat.le_min_l | ].
    destruct (classify_contours_loop (binary64 0.82) (or_introl eq_refl) Class)
      as [_ Loop].
    destruct (classify_loop_buckets _ _ Loop) as [P _].
    destruct b as [[c r] o]. cbn [select] in P. unfold all_contours.
    now rewrite (Permutation_length P).
Qed.

(** X23. Drawing in two calls is drawing in one: the contours [a ++ b] drawn
    at once give the image obtained by drawing [a] and then drawing [b] on
    the result, with the same colour and thickness. *)
Theorem X23_draw_contours_composition (image : pyimage) (a b : list ndarray)
    (color : Pixel) (thickness : Z) :
  draw_contours image (a ++ b) color thickness
  = (out <- draw_contours image a color thickness ;;
     draw_contours (ImColor out) b color thickness).
Proof.
  destruct image; cbn [draw_contours bind]; try reflexivity;
    apply draw_loop_app.
Qed.

End PipelineFacts.

(* ===================================================================== *)
(** ** The further theorems at work on the reference implementation *)
(* ===================================================================== *)

(** [detect] does not raise on the 100 x 100 square: its bounding rectangle
    is 101 pixels high. *)
Lemma X1_detect_outcomes_witness :
  @ShapeDetector.detect RefCv2.cv2 ShapeDetector.new Examples.square100
  <> Raise ZeroDivisionError.
Proof.
  intros E.
  apply (proj1 (proj1 (@X1_detect_outcomes RefCv2.cv2 ShapeDetector.new
                         Examples.square100 Examples.square100 0 0 101 101
                         ltac:(discriminate) eq_refl eq_refl))) in E.
  destruct E as [_ E]. discriminate E.
Defined.

(** The bar is 201 x 51 pixels: 20 * 201 > 21 * 51, a rectangle. *)
Lemma X2_detect_integer_aspect_witness :
  @ShapeDetector.detect RefCv2.cv2 ShapeDetector.new Examples.bar
  = Ok ShapeDetector.rectangle.
Proof.
  apply (proj1 (proj2 (@X2_detect_integer_aspect RefCv2.cv2 ShapeDetector.new
                         Examples.bar Examples.bar 0 0 201 51
                         eq_refl eq_refl eq_refl eq_refl))).
  lia.
Defined.

(** Four elements, three of them arrays: three contours in the buckets. *)
Lemma X3_buckets_partition_input_witness :
  Permutation ([Examples.octagon] ++ [Examples.square100] ++ [Examples.segment])
              [Examples.square100; Examples.octagon; Examples.segment].
Proof.
  refine (proj1 (@X3_buckets_partition_input RefCv2.cv2 0.82
                   (PyList [PyArray Examples.square100; PyInt 3;
                            PyArray Examples.octagon; PyArray Examples.segment])
                   [PyArray Examples.square100; PyInt 3;
                    PyArray Examples.octagon; PyArray Examples.segment]
                   [Examples.octagon] [Examples.square100] [Examples.segment]
                   (or_introl eq_refl) _)).
  vm_compute. reflexivity.
Defined.


(** At 0.5 the square and the octagon are circles, at 0.82 the octagon
    alone. *)
Lemma X5_threshold_monotone_witness :
  incl [Examples.octagon] [Examples.square100; Examples.octagon].
Proof.
  refine (proj1 (@X5_threshold_monotone RefCv2.cv2 0.5 0.82
                   [PyArray Examples.square100; PyArray Examples.octagon]
                   [Examples.square100; Examples.octagon] [] []
                   [Examples.octagon] [Examples.square100] [] _ _ _)).
  - vm_compute. discriminate.
  - vm_compute. reflexivity.
  - vm_compute. reflexivity.
Defined.

Lemma X6_batch_composition_witness :
  @DetectShapes.classify_contours RefCv2.cv2
    (PyList ([PyArray Examples.square100; PyArray Examples.segment]
             ++ [PyArray Examples.octagon; PyArray Examples.bar])) 0.82
  = Ok ([Examples.octagon], [Examples.square100; Examples.bar], [Examples.segment]).
Proof.
  refine (eq_trans
            (@X6_batch_composition RefCv2.cv2 0.82
               [PyArray Examples.square100; PyArray Examples.segment]
               [PyArray Examples.octagon; PyArray Examples.bar] _ _) _).
  - discriminate.
  - discriminate.
  - vm_compute. reflexivity.
Defined.

Lemma X7_partition_exceptions_witness :
  exists c r o,
    @DetectShapes.classify_contours RefCv2.cv2
      (PyList [PyArray Examples.square100; PyNone; PyArray Examples.trapezoid]) 0.82
    = Ok (c, r, o).
Proof.
  refine (proj2 (@X7_partition_exceptions RefCv2.cv2 0.82
                   (PyList [PyArray Examples.square100; PyNone;
                            PyArray Examples.trapezoid])
                   [PyArray Examples.square100; PyNone; PyArray Examples.trapezoid]
                   (or_introl eq_refl) _) _).
  - discriminate.
  - repeat constructor; intros _; vm_compute; discriminate.
Defined.

(** The rects of a run, classified again, are the rects. *)
Lemma X8_bucket_stable_witness :
  @DetectShapes.classify_contours RefCv2.cv2
    (PyList [PyArray Examples.square100; PyArray Examples.bar]) 0.82
  = Ok ([], [Examples.square100; Examples.bar], []).
Proof.
  refine (@X8_bucket_stable RefCv2.cv2 0.82
            (PyList [PyArray Examples.square100; PyArray Examples.octagon;
                     PyArray Examples.bar])
            [PyArray Examples.square100; PyArray Examples.octagon;
             PyArray Examples.bar]
            [Examples.octagon] [Examples.square100; Examples.bar] []
            Rects (or_introl eq_refl) _ _).
  - vm_compute. reflexivity.
  - discriminate.
Defined.

(** A file that is not there. *)
Lemma X12_labeler_exceptions_witness :
  exists msg,
    @DetectedFigures.detect_shapes_and_colors RefCv2.cv2 "missing.png"
      [Examples.square100] ["rectangle"] None
    = Raise (FileNotFoundError msg).
Proof.
  exact (proj1 (proj1 (@X12_labeler_exceptions RefCv2.cv2 "missing.png"
                         [Examples.square100] ["rectangle"] None)) eq_refl).
Defined.

(** The segment (area 0) is dropped, and the square keeps its label. *)
Lemma X13_labeler_pairs_kept_witness :
  exists results,
    @DetectedFigures.detect_shapes_and_colors RefCv2.cv2 "shapes.png"
      [Examples.segment; Examples.square100] ["other"; "rectangle"] None
    = Ok results /\
    map (fun record : DetectedFigures.Labelled =>
           (fst (fst record), snd (fst record))) results
    = [(Examples.square100, "rectangle")].
Proof.
  destruct (@X13_labeler_pairs_kept RefCv2.cv2 "shapes.png" RefCv2.picture
              [Examples.segment; Examples.square100] ["other"; "rectangle"]
              None eq_refl) as (results & Run & Pairs & _).
  exists results. split; [ exact Run | ].
  rewrite Pairs. vm_compute. reflexivity.
Defined.

Lemma X14_labeler_concatenation_witness :
  @DetectedFigures.detect_shapes_and_colors RefCv2.cv2 "shapes.png"
    ([Examples.square100] ++ [Examples.bar]) (["a"] ++ ["b"]) None
  = Ok [ (Examples.square100, "a", "red"); (Examples.bar, "b", "green") ].
Proof.
  refine (eq_trans
            (@X14_labeler_concatenation RefCv2.cv2 "shapes.png"
               [Examples.square100] [Examples.bar] ["a"] ["b"] None eq_refl) _).
  vm_compute. reflexivity.
Defined.

(** The centroid (-1/2, -1/2) of [corner_square] is sampled at the pixel
    (0, 0). *)
Lemma X15_labeler_centroid_bounds_witness :
  @DetectedFigures.detect_shapes_and_colors RefCv2.cv2 "shapes.png"
    [Examples.corner_square] ["rectangle"] None
  = Ok [ (Examples.corner_square, "rectangle", "red") ].
Proof.
  refine (eq_trans
            (proj2 (proj2 (proj2
               (@X15_labeler_centroid_bounds RefCv2.cv2 "shapes.png" RefCv2.picture
                  Examples.corner_square "rectangle" None _ _
                  eq_refl eq_refl eq_refl _ _ eq_refl eq_refl) _))) _).
  - vm_compute. discriminate.
  - vm_compute. discriminate.
  - vm_compute. intros [O | [O | [O | O]]]; apply O; reflexivity.
  - vm_compute. reflexivity.
Defined.

Lemma X16_labeler_colors_from_table_witness :
  In (Examples.bar, "rectangle")
     (combine [Examples.square100; Examples.bar] ["rectangle"; "rectangle"]) /\
  ("green" = "unknown" \/
   exists r, In ("green", r) DetectedFigures.default_color_hsv_ranges).
Proof.
  refine (@X16_labeler_colors_from_table RefCv2.cv2 "shapes.png"
            [Examples.square100; Examples.bar] ["rectangle"; "rectangle"] None
            [ (Examples.square100, "rectangle", "red");
              (Examples.bar, "rectangle", "green") ] _
            Examples.bar "rectangle" "green" _).
  - vm_compute. reflexivity.
  - right. left. reflexivity.
Defined.

(** The picture gives three contours with an area between 500 and 20000. *)
Lemma X18_process_image_result_witness :
  [PyArray Examples.octagon; PyArray Examples.square100; PyArray Examples.bar]
  <> [] /\
  exists path img,
    Some "shapes.png" = Some path /\ @path_exists RefEnv.env path = true /\
    @imread RefCv2.cv2 path = Some img /\ ImColor RefCv2.picture = ImColor img.
Proof.
  destruct (@X18_process_image_result RefCv2.cv2 RefEnv.env (Some "shapes.png")
              100 255 100 255 500 20000 (ImColor RefCv2.picture)
              [PyArray Examples.octagon; PyArray Examples.square100;
               PyArray Examples.bar]) as (N & _ & T & _).
  - vm_compute. reflexivity.
  - split; [ exact N | exact (T eq_refl) ].
Defined.

(** The empty string is no path: the coins picture is used, and here it has
    contours whatever the parameters are. *)
Lemma X19_process_image_falsy_path_witness :
  @DetectShapesIO.process_image RefCv2.cv2 RefEnv.env (Some "") 1 2 3 4 5 6
  = Ok (ImGray RefEnv.data_coins, [PyArray Examples.corner_square]).
Proof.
  refine (eq_trans
            (@X19_process_image_falsy_path RefCv2.cv2 RefEnv.env (Some "")
               1 2 3 4 5 6 eq_refl) _).
  vm_compute. reflexivity.
Defined.

(** A missing file, and a file that is no image. *)
Lemma X20_process_image_exceptions_witness :
  (exists msg,
     @DetectShapesIO.process_image RefCv2.cv2 RefEnv.env (Some "missing.png")
       100 255 100 255 500 20000 = Raise (FileNotFoundError msg)) /\
  (exists msg,
     @DetectShapesIO.process_image RefCv2.cv2 RefEnv.env (Some "notes.txt")
       100 255 100 255 500 20000 = Raise (ValueError msg)).
Proof.
  split.
  - apply (proj2 (proj1 (@X20_process_image_exceptions RefCv2.cv2 RefEnv.env
                           (Some "missing.png") 100 255 100 255 500 20000))).
    exists "missing.png".
    split; [ reflexivity | split; [ discriminate | reflexivity ] ].
  - apply (proj2 (proj2 (@X20_process_image_exceptions RefCv2.cv2 RefEnv.env
                           (Some "notes.txt") 100 255 100 255 500 20000))
             "notes.txt" eq_refl); [ discriminate | reflexivity | reflexivity ].
Defined.

(** On the picture [main] labels the three contours and returns 3. *)
Lemma X21_main_pipeline_witness :
  @DetectedFiguresMain.main RefCv2.cv2 RefEnv.env (Some "shapes.png") = 3%Z.
Proof.
  destruct (proj2 (@X21_main_pipeline RefCv2.cv2 RefEnv.env (Some "shapes.png"))
              (ImColor RefCv2.picture)
              [PyArray Examples.octagon; PyArray Examples.square100;
               PyArray Examples.bar]
              ([Examples.octagon], [Examples.square100; Examples.bar], [])
              eq_refl)
    as (path & results & Ep & Run & _ & M & _).
  - vm_compute. reflexivity.
  - vm_compute. reflexivity.
  - rewrite M. injection Ep as <-. vm_compute in Run. injection Run as <-.
    reflexivity.
Defined.

(* ===================================================================== *)
(** ** The counting loop of utils/proga1.py *)
(* ===================================================================== *)

Section CountFacts.
Context `{Cv2}.
Import Proga1Main.

Lemma count_step_counted (ratio : Q) (found : Z) (c : ndarray) :
  forall n, count_step ShapeDetector.new ratio found c = Ok n ->
            n = (found + if counted c then 1 else 0)%Z.
Proof.
  intros n. unfold count_step, counted.
  destruct (Qeqb (m00 (moments c)) 0) eqn:Z; cbn [negb andb].
  - intros E. injection E as <-. lia.
  - apply Qeqb_neq in Z. rewrite !(float_div_ok _ Z). cbn [bind].
    destruct (ShapeDetector.detect ShapeDetector.new c) as [shape | e];
      cbn [bind]; [ | discriminate ].
    destruct (String.eqb shape ShapeDetector.rectangle
              || String.eqb shape ShapeDetector.square);
      intros E; injection E as <-; lia.
Qed.

Lemma count_loop_counted (ratio : Q) (contours : list ndarray) :
  forall found n,
    count_loop ShapeDetector.new ratio contours found = Ok n ->
    n = (found + Z.of_nat (List.length (filter counted contours)))%Z.
Proof.
  induction contours as [ | c rest IH]; intros found n; cbn [count_loop filter].
  - intros E. injection E as <-. cbn. lia.
  - intros Run. apply bind_ok_inv in Run as (f & Step & Run).
    apply count_step_counted in Step. apply IH in Run. subst f n.
    destruct (counted c); cbn [List.length]; lia.
Qed.

Lemma count_loop_ratio (ratio ratio' : Q) (contours : list ndarray) :
  forall found,
    count_loop ShapeDetector.new ratio contours found
    = count_loop ShapeDetector.new ratio' contours found.
Proof.
  induction contours as [ | c rest IH]; intros found; [ reflexivity | ].
  cbn [count_loop].
  assert (S : count_step ShapeDetector.new ratio found c
              = count_step ShapeDetector.new ratio' found c).
  { unfold count_step.
    destruct (Qeqb (m00 (moments c)) 0); [ reflexivity | ].
    unfold float_div. destruct (Qeqb (m00 (moments c)) 0); reflexivity. }
  rewrite S. destruct (count_step ShapeDetector.new ratio' found c);
    cbn [bind]; [ apply IH | reflexivity ].
Qed.

(** X24. The counter of proga1's [main].  When the loop ends,
    [rectangles_found] is the number of contours with m00 other than 0 that
    [detect] calls rectangle or square, so it is between 0 and the number of
    contours; the scale factor has no influence on it; and contours with
    m00 = 0 are skipped before [detect] runs, so a list of such contours
    gives 0 whatever [detect] would do. *)
Theorem X24_rectangles_found (ratio : Q) (contours : list ndarray) :
  (forall n,
     count_rectangles ratio contours = Ok n ->
     n = Z.of_nat (List.length (filter counted contours)) /\
     (0 <= n <= Z.of_nat (List.length contours))%Z) /\
  (forall ratio', count_rectangles ratio' contours = count_rectangles ratio contours) /\
  (Forall (fun c => (m00 (moments c) == 0)%Q) contours ->
   count_rectangles ratio contours = Ok 0%Z).
Proof.
  unfold count_rectangles. split; [ | split ].
  - intros n Run. apply count_loop_counted in Run. subst n.
    split; [ reflexivity | ].
    pose proof (filter_length_le counted contours). lia.
  - intros ratio'. apply count_loop_ratio.
  - intros F.
    assert (G : forall found,
              count_loop ShapeDetector.new ratio contours found = Ok found).
    { induction F as [ | c rest Hc Hr IH]; intros found; [ reflexivity | ].
      cbn [count_loop].
      assert (Skip : count_step ShapeDetector.new ratio found c = Ok found).
      { unfold count_step.
        replace (Qeqb (m00 (moments c)) 0) with true; [ reflexivity | ].
        symmetry. apply Qeqb_eq. exact Hc. }
      rewrite Skip. cbn [bind]. apply IH. }
    apply G.
Qed.

End CountFacts.

(** The square and the bar are counted, the octagon (8 vertices) is not. *)
Lemma X24_rectangles_found_witness :
  2%Z = Z.of_nat (List.length
          (filter (@counted RefCv2.cv2)
                  [Examples.square100; Examples.octagon; Examples.bar])) /\
  (0 <= 2 <= Z.of_nat 3)%Z.
Proof.
  apply (proj1 (@X24_rectangles_found RefCv2.cv2 1
                  [Examples.square100; Examples.octagon; Examples.bar]) 2%Z).
  vm_compute. reflexivity.
Defined.
